(** * Barberian API: a shallow embedding of [backend/server/main.py]

    The service is a set of FastAPI handlers over SQLAlchemy models.  The
    embedding keeps the three layers of the source apart:

    - the SQLAlchemy models become records, one per mapped class (the
      attribute [User.email] is the projection [User_email]), and the
      database becomes a record of tables (rows in storage order, together
      with the table's auto-increment counter);
    - the Pydantic schemas become records too;
    - every handler becomes a computation in a small state-and-error monad
      over the database.

    What the models declare is enforced when a handler commits.  A value
    that does not fit its column (a string longer than its [String(n)], an
    integer outside the 32 bits of [Integer]) aborts the request with
    [DataError]; a violation of a key constraint ([unique], [ForeignKey],
    [nullable=False]) aborts it with [IntegrityError], after the row has
    taken a value of the counter.  A payload is a value that has passed the
    validation of its schema; a string is the UTF-8 encoding of a Python
    [str]. *)

From Stdlib Require Import ZArith List String Bool Lia Sorted Permutation.
From Stdlib Require Import DecimalString.
Import ListNotations.

Open Scope Z_scope.

(** ** Enums *)

Inductive AuthProviderEnum : Set := local | google.

Inductive AppointmentStatusEnum : Set := pending | confirmed | cancelled | done.

Inductive DayOfWeekEnum : Set :=
  monday | tuesday | wednesday | thursday | friday | saturday | sunday.

(** [datetime.date] and [datetime.time] values, field by field; a time is
    a whole number of seconds, as a [Time] column keeps it. *)
Record date : Set := mk_date { year : Z; month : Z; day : Z }.
Record time : Set := mk_time { hour : Z; minute : Z; second : Z }.

(** ** SQLAlchemy models

    One record per mapped class; a nullable column has an [option] type.
    The [relationship] attributes are not columns: they are computed from
    the foreign keys when a response is built. *)

Record AuthProvider : Set := mk_AuthProvider
    { AuthProvider_id_auth_provider : Z;
      AuthProvider_provider : AuthProviderEnum;
      AuthProvider_provider_id_google : option string;
      AuthProvider_token : option string }.

Record Role : Set := mk_Role { Role_id_role : Z; Role_name : string }.

Record Genre : Set := mk_Genre { Genre_id_genre : Z; Genre_name : string }.

Record Department : Set := mk_Department
    { Department_id_department : Z; Department_name : string }.

Record City : Set := mk_City
    { City_id_city : Z; City_name : string; City_id_department : Z }.

Record User : Set := mk_User
    { User_id_user : Z;
      User_full_name : string;
      User_email : string;
      User_password_hash : option string;
      User_id_role : option Z }.

Record UserAuthProvider : Set := mk_UserAuthProvider
    { UserAuthProvider_id_user : Z;
      UserAuthProvider_id_auth_provider : Z }.

Record Specialty : Set := mk_Specialty
    { Specialty_id_specialty : Z;
      Specialty_name : string;
      Specialty_years_experience : option Z }.

Record BarberSchedule : Set := mk_BarberSchedule
    { BarberSchedule_id_schedule : Z;
      BarberSchedule_day_of_week : DayOfWeekEnum;
      BarberSchedule_start_time : time;
      BarberSchedule_end_time : time }.

Record Customer : Set := mk_Customer
    { Customer_id_customer : Z;
      Customer_id_user : Z;
      Customer_id_genre : Z;
      Customer_phone : option string;
      Customer_direction : option string;
      Customer_id_department : Z;
      Customer_id_city : Z }.

Record Staff : Set := mk_Staff { Staff_id_staff : Z; Staff_id_barber : Z }.

Record Barbershop : Set := mk_Barbershop
    { Barbershop_id_barbershop : Z;
      Barbershop_id_staff : Z;
      Barbershop_phone : option string }.

Record Barber : Set := mk_Barber
    { Barber_id_barber : Z;
      Barber_id_user : Z;
      Barber_id_genre : Z;
      Barber_id_barbershop : option Z;
      Barber_id_specialty : option Z;
      Barber_id_department : Z;
      Barber_id_city : Z;
      Barber_id_barber_schedule : option Z;
      Barber_phone : option string;
      Barber_direction : option string;
      Barber_points : Z }.

Record Location : Set := mk_Location
    { Location_id_location : Z;
      Location_id_barbershop : Z;
      Location_id_department : Z;
      Location_id_city : Z;
      Location_address : string;
      Location_opening_hour : time;
      Location_closing_hour : time }.

Record Appointment : Set := mk_Appointment
    { Appointment_id_appointment : Z;
      Appointment_id_customer : Z;
      Appointment_id_barber : Z;
      Appointment_appointment_date : date;
      Appointment_start_time : time;
      Appointment_end_time : time;
      Appointment_status : option AppointmentStatusEnum }.

(** [appointment.status = status]: the attribute assignment of
    [update_appointment_status]; every other attribute keeps its value. *)
Definition Appointment_set_status (a : Appointment)
    (s : AppointmentStatusEnum) : Appointment :=
  mk_Appointment (Appointment_id_appointment a) (Appointment_id_customer a)
    (Appointment_id_barber a) (Appointment_appointment_date a)
    (Appointment_start_time a) (Appointment_end_time a) (Some s).

(** ** Pydantic schemas *)

Record RoleCreate : Set := mk_RoleCreate { RoleCreate_name : string }.


Record GenreCreate : Set := mk_GenreCreate { GenreCreate_name : string }.

Record DepartmentCreate : Set := mk_DepartmentCreate
    { DepartmentCreate_name : string }.

Record CityCreate : Set := mk_CityCreate
    { CityCreate_name : string; CityCreate_id_department : Z }.

Record UserCreate : Set := mk_UserCreate
    { UserCreate_full_name : string;
      UserCreate_email : string;
      UserCreate_id_role : option Z;
      UserCreate_password : string }.


Record CustomerCreate : Set := mk_CustomerCreate
    { CustomerCreate_id_user : Z;
      CustomerCreate_id_genre : Z;
      CustomerCreate_phone : option string;
      CustomerCreate_direction : option string;
      CustomerCreate_id_department : Z;
      CustomerCreate_id_city : Z }.

Record SpecialtyCreate : Set := mk_SpecialtyCreate
    { SpecialtyCreate_name : string;
      SpecialtyCreate_years_experience : option Z }.

Record BarberScheduleCreate : Set := mk_BarberScheduleCreate
    { BarberScheduleCreate_day_of_week : DayOfWeekEnum;
      BarberScheduleCreate_start_time : time;
      BarberScheduleCreate_end_time : time }.

Record BarberCreate : Set := mk_BarberCreate
    { BarberCreate_id_user : Z;
      BarberCreate_id_genre : Z;
      BarberCreate_id_barbershop : option Z;
      BarberCreate_id_specialty : option Z;
      BarberCreate_id_department : Z;
      BarberCreate_id_city : Z;
      BarberCreate_id_barber_schedule : option Z;
      BarberCreate_phone : option string;
      BarberCreate_direction : option string;
      BarberCreate_points : Z }.

Record StaffCreate : Set := mk_StaffCreate { StaffCreate_id_barber : Z }.

Record BarbershopCreate : Set := mk_BarbershopCreate
    { BarbershopCreate_id_staff : Z; BarbershopCreate_phone : option string }.

Record LocationCreate : Set := mk_LocationCreate
    { LocationCreate_id_barbershop : Z;
      LocationCreate_id_department : Z;
      LocationCreate_id_city : Z;
      LocationCreate_address : string;
      LocationCreate_opening_hour : time;
      LocationCreate_closing_hour : time }.

Record AppointmentCreate : Set := mk_AppointmentCreate
    { AppointmentCreate_id_customer : Z;
      AppointmentCreate_id_barber : Z;
      AppointmentCreate_appointment_date : date;
      AppointmentCreate_start_time : time;
      AppointmentCreate_end_time : time;
      AppointmentCreate_status : AppointmentStatusEnum }.

(** Validation of an appointment body: the five required fields, and
    [status] when the body carries it.  A body without [status] gets the
    field default of [AppointmentBase], [AppointmentStatusEnum.pending]. *)
Definition AppointmentCreate_parse (id_customer id_barber : Z)
    (appointment_date : date) (start_time end_time : time)
    (status : option AppointmentStatusEnum) : AppointmentCreate :=
  mk_AppointmentCreate id_customer id_barber appointment_date start_time
    end_time (match status with Some s => s | None => pending end).

(** ** The database

    A table holds its rows in storage order (a row is appended by INSERT and
    keeps its place under UPDATE) and the next value of its AUTO_INCREMENT
    primary key, an integer without bound here.  The fields of [DB] carry
    the [__tablename__] of each model; [user_auth_provider] has a composite
    key and no counter. *)

Record Table (R : Type) : Type := mk_Table { rows : list R; next_id : Z }.

Arguments mk_Table {R} _ _.
Arguments rows {R} _.
Arguments next_id {R} _.

Record DB : Type := mk_DB
    { auth_provider : Table AuthProvider;
      roles : Table Role;
      genres : Table Genre;
      departments : Table Department;
      citys : Table City;
      users : Table User;
      user_auth_provider : list UserAuthProvider;
      specialties : Table Specialty;
      barber_schedule : Table BarberSchedule;
      customers : Table Customer;
      staff : Table Staff;
      barbershops : Table Barbershop;
      barbers : Table Barber;
      locations : Table Location;
      appointment : Table Appointment }.

(** The store before any request: every table empty, every counter at 1. *)
Definition empty_table {R : Type} : Table R := mk_Table [] 1.

Definition empty_db : DB :=
  mk_DB empty_table empty_table empty_table empty_table empty_table
    empty_table [] empty_table empty_table empty_table empty_table
    empty_table empty_table empty_table empty_table.

(** Replacing one table of the store; the API writes to thirteen of them. *)
Definition set_roles (t : Table Role) (db : DB) : DB :=
  mk_DB (auth_provider db) t (genres db) (departments db) (citys db)
    (users db) (user_auth_provider db) (specialties db) (barber_schedule db)
    (customers db) (staff db) (barbershops db) (barbers db) (locations db)
    (appointment db).

Definition set_genres (t : Table Genre) (db : DB) : DB :=
  mk_DB (auth_provider db) (roles db) t (departments db) (citys db) (users db)
    (user_auth_provider db) (specialties db) (barber_schedule db)
    (customers db) (staff db) (barbershops db) (barbers db) (locations db)
    (appointment db).

Definition set_departments (t : Table Department) (db : DB) : DB :=
  mk_DB (auth_provider db) (roles db) (genres db) t (citys db) (users db)
    (user_auth_provider db) (specialties db) (barber_schedule db)
    (customers db) (staff db) (barbershops db) (barbers db) (locations db)
    (appointment db).

Definition set_citys (t : Table City) (db : DB) : DB :=
  mk_DB (auth_provider db) (roles db) (genres db) (departments db) t
    (users db) (user_auth_provider db) (specialties db) (barber_schedule db)
    (customers db) (staff db) (barbershops db) (barbers db) (locations db)
    (appointment db).

Definition set_users (t : Table User) (db : DB) : DB :=
  mk_DB (auth_provider db) (roles db) (genres db) (departments db) (citys db)
    t (user_auth_provider db) (specialties db) (barber_schedule db)
    (customers db) (staff db) (barbershops db) (barbers db) (locations db)
    (appointment db).

Definition set_specialties (t : Table Specialty) (db : DB) : DB :=
  mk_DB (auth_provider db) (roles db) (genres db) (departments db) (citys db)
    (users db) (user_auth_provider db) t (barber_schedule db) (customers db)
    (staff db) (barbershops db) (barbers db) (locations db) (appointment db).

Definition set_barber_schedule (t : Table BarberSchedule) (db : DB) : DB :=
  mk_DB (auth_provider db) (roles db) (genres db) (departments db) (citys db)
    (users db) (user_auth_provider db) (specialties db) t (customers db)
    (staff db) (barbershops db) (barbers db) (locations db) (appointment db).

Definition set_customers (t : Table Customer) (db : DB) : DB :=
  mk_DB (auth_provider db) (roles db) (genres db) (departments db) (citys db)
    (users db) (user_auth_provider db) (specialties db) (barber_schedule db) t
    (staff db) (barbershops db) (barbers db) (locations db) (appointment db).

Definition set_staff (t : Table Staff) (db : DB) : DB :=
  mk_DB (auth_provider db) (roles db) (genres db) (departments db) (citys db)
    (users db) (user_auth_provider db) (specialties db) (barber_schedule db)
    (customers db) t (barbershops db) (barbers db) (locations db)
    (appointment db).

Definition set_barbershops (t : Table Barbershop) (db : DB) : DB :=
  mk_DB (auth_provider db) (roles db) (genres db) (departments db) (citys db)
    (users db) (user_auth_provider db) (specialties db) (barber_schedule db)
    (customers db) (staff db) t (barbers db) (locations db) (appointment db).

Definition set_barbers (t : Table Barber) (db : DB) : DB :=
  mk_DB (auth_provider db) (roles db) (genres db) (departments db) (citys db)
    (users db) (user_auth_provider db) (specialties db) (barber_schedule db)
    (customers db) (staff db) (barbershops db) t (locations db)
    (appointment db).

Definition set_locations (t : Table Location) (db : DB) : DB :=
  mk_DB (auth_provider db) (roles db) (genres db) (departments db) (citys db)
    (users db) (user_auth_provider db) (specialties db) (barber_schedule db)
    (customers db) (staff db) (barbershops db) (barbers db) t (appointment db).

Definition set_appointment (t : Table Appointment) (db : DB) : DB :=
  mk_DB (auth_provider db) (roles db) (genres db) (departments db) (citys db)
    (users db) (user_auth_provider db) (specialties db) (barber_schedule db)
    (customers db) (staff db) (barbershops db) (barbers db) (locations db) t.

(** ** Requests

    A handler runs against the store and either returns a value or raises.
    [HTTPException] is what the handlers raise themselves; [IntegrityError]
    is raised by [db.commit()] when the statement violates a key constraint
    of the models, [DataError] when a value does not fit its column,
    [ProgrammingError] by a query that the store rejects.
    No handler catches anything, so each of them ends the request.  A
    request that raises has committed nothing: [get_db] closes the session,
    and the only [db.commit()] of a handler is its last statement before
    [return]. *)

Inductive Error : Set :=
  | HTTPException (status_code : Z) (detail : string)
  | IntegrityError
  | DataError
  | ProgrammingError.

Inductive Result (A : Type) : Type :=
  | Ok (a : A)
  | Err (e : Error).

Arguments Ok {A} _.
Arguments Err {A} _.

Definition M (A : Type) : Type := DB -> Result A * DB.

Definition ret {A : Type} (a : A) : M A := fun db => (Ok a, db).

Definition raise {A : Type} (e : Error) : M A := fun db => (Err e, db).

Definition bind {A B : Type} (c : M A) (k : A -> M B) : M B :=
  fun db =>
    match c db with
    | (Ok a, db') => k a db'
    | (Err e, db') => (Err e, db')
    end.

Notation "x <- c ;; k" := (bind c (fun x => k))
  (at level 61, c at next level, right associativity).
Notation "c ;;; k" := (bind c (fun _ => k))
  (at level 61, right associativity).

(** *** Queries: [db.query(Model)...] *)

(** [.filter(p).all()] *)
Definition query_all {R : Type} (tbl : DB -> Table R) (p : R -> bool)
    : M (list R) :=
  fun db => (Ok (filter p (rows (tbl db))), db).

(** [.filter(p).first()]: the first matching row in storage order, or
    [None]. *)
Definition query_first {R : Type} (tbl : DB -> Table R) (p : R -> bool)
    : M (option R) :=
  fun db => (Ok (find p (rows (tbl db))), db).

(** What the store takes as [OFFSET] and as [LIMIT]: an unsigned integer
    of 64 bits. *)
Definition row_count (n : Z) : bool := (0 <=? n) && (n <? 2 ^ 64).

(** [.offset(skip).limit(limit).all()]; the store rejects the statement
    when [skip] or [limit] is no row count.  The query has no [ORDER BY]:
    the order of the result is the store's, here the storage order. *)
Definition query_page {R : Type} (tbl : DB -> Table R) (skip limit : Z)
    : M (list R) :=
  fun db =>
    if row_count skip && row_count limit
    then (Ok (firstn (Z.to_nat limit) (skipn (Z.to_nat skip) (rows (tbl db)))),
          db)
    else (Err ProgrammingError, db).

(** [.count()] *)
Definition query_count {R : Type} (tbl : DB -> Table R) : M Z :=
  fun db => (Ok (Z.of_nat (List.length (rows (tbl db)))), db).

(** *** Key constraints *)

(** Some row of the table has primary key [k]. *)
Definition has_pk {R : Type} (pk : R -> Z) (t : Table R) (k : Z) : bool :=
  existsb (fun r => pk r =? k) (rows t).

(** A nullable foreign key is either NULL or refers to a row. *)
Definition has_pk_opt {R : Type} (pk : R -> Z) (t : Table R) (k : option Z)
    : bool :=
  match k with
  | None => true
  | Some k => has_pk pk t k
  end.

(** *** Column types *)

(** A byte [10xxxxxx] continues a character of a UTF-8 string. *)
Definition is_continuation (c : Ascii.ascii) : bool :=
  match c with
  | Ascii.Ascii _ _ _ _ _ _ b6 b7 => b7 && negb b6
  end.

(** [len(s)]: the number of characters of the string. *)
Fixpoint len (s : string) : nat :=
  match s with
  | EmptyString => O
  | String c s => ((if is_continuation c then 0 else 1) + len s)%nat
  end.

(** [String(n)]: at most [n] characters. *)
Definition String_fits (n : Z) (s : string) : bool := Z.of_nat (len s) <=? n.

Definition String_fits_opt (n : Z) (s : option string) : bool :=
  match s with
  | None => true
  | Some s => String_fits n s
  end.

(** [Integer]: a signed integer of 32 bits. *)
Definition Integer_fits (k : Z) : bool :=
  (- 2 ^ 31 <=? k) && (k <? 2 ^ 31).

Definition Integer_fits_opt (k : option Z) : bool :=
  match k with
  | None => true
  | Some k => Integer_fits k
  end.

(** *** Writes

    [db.add(obj); db.commit(); db.refresh(obj)]: the INSERT is refused with
    [DataError] when a value of the row does not fit its column, before a
    value of the counter is taken; otherwise the row takes the next value
    of the counter as its primary key and is checked against the key
    constraints of the table.  A row that they refuse is rolled back with
    [IntegrityError], but the value it took is not given back.  The
    refreshed object is the stored row. *)
Definition add_commit_refresh {R : Type} (tbl : DB -> Table R)
    (set : Table R -> DB -> DB) (columns : R -> bool)
    (check : DB -> R -> bool) (obj : Z -> R) : M R :=
  fun db =>
    let row := obj (next_id (tbl db)) in
    if columns row
    then if check db row
         then (Ok row,
               set (mk_Table (rows (tbl db) ++ [row]) (next_id (tbl db) + 1))
                 db)
         else (Err IntegrityError,
               set (mk_Table (rows (tbl db)) (next_id (tbl db) + 1)) db)
    else (Err DataError, db).

(** *** The columns of each model

    The values of a row that the payload supplies, each against the type
    of its column; the primary key comes from the counter. *)

Definition Role_columns (r : Role) : bool := String_fits 100 (Role_name r).

Definition Genre_columns (g : Genre) : bool := String_fits 50 (Genre_name g).

Definition Department_columns (d : Department) : bool :=
  String_fits 100 (Department_name d).

Definition City_columns (c : City) : bool :=
  String_fits 100 (City_name c) && Integer_fits (City_id_department c).

Definition User_columns (u : User) : bool :=
  String_fits 255 (User_full_name u)
  && String_fits 255 (User_email u)
  && String_fits_opt 255 (User_password_hash u)
  && Integer_fits_opt (User_id_role u).

(** The same of a payload of [create_user], whose [password] goes to
    [password_hash]. *)
Definition UserCreate_fits (user : UserCreate) : bool :=
  String_fits 255 (UserCreate_full_name user)
  && String_fits 255 (UserCreate_email user)
  && String_fits 255 (UserCreate_password user)
  && Integer_fits_opt (UserCreate_id_role user).

Definition Specialty_columns (s : Specialty) : bool :=
  String_fits 100 (Specialty_name s)
  && Integer_fits_opt (Specialty_years_experience s).

Definition BarberSchedule_columns (s : BarberSchedule) : bool := true.

Definition Customer_columns (c : Customer) : bool :=
  Integer_fits (Customer_id_user c)
  && Integer_fits (Customer_id_genre c)
  && String_fits_opt 255 (Customer_phone c)
  && String_fits_opt 255 (Customer_direction c)
  && Integer_fits (Customer_id_department c)
  && Integer_fits (Customer_id_city c).

Definition Staff_columns (s : Staff) : bool :=
  Integer_fits (Staff_id_barber s).

Definition Barbershop_columns (b : Barbershop) : bool :=
  Integer_fits (Barbershop_id_staff b)
  && String_fits_opt 50 (Barbershop_phone b).

Definition Barber_columns (b : Barber) : bool :=
  Integer_fits (Barber_id_user b)
  && Integer_fits (Barber_id_genre b)
  && Integer_fits_opt (Barber_id_barbershop b)
  && Integer_fits_opt (Barber_id_specialty b)
  && Integer_fits (Barber_id_department b)
  && Integer_fits (Barber_id_city b)
  && Integer_fits_opt (Barber_id_barber_schedule b)
  && String_fits_opt 255 (Barber_phone b)
  && String_fits_opt 255 (Barber_direction b)
  && Integer_fits (Barber_points b).

Definition Location_columns (l : Location) : bool :=
  Integer_fits (Location_id_barbershop l)
  && Integer_fits (Location_id_department l)
  && Integer_fits (Location_id_city l)
  && String_fits 255 (Location_address l).

Definition Appointment_columns (a : Appointment) : bool :=
  Integer_fits (Appointment_id_customer a)
  && Integer_fits (Appointment_id_barber a).

(** *** The constraints of each model

    What the INSERT of a row is checked against: the [unique=True] column of
    [User] and the [ForeignKey] columns.  [Role], [Genre], [Department],
    [Specialty] and [BarberSchedule] declare none.  The primary key needs no
    check: it comes from the counter.  The unique index tells emails apart
    by their text; an index that identifies more of them (a collation that
    ignores case) refuses more. *)

Definition unconstrained {R : Type} (db : DB) (r : R) : bool := true.

Definition City_constraints (db : DB) (c : City) : bool :=
  has_pk Department_id_department (departments db) (City_id_department c).

Definition User_constraints (db : DB) (u : User) : bool :=
  negb (existsb (fun v => String.eqb (User_email v) (User_email u))
          (rows (users db)))
  && has_pk_opt Role_id_role (roles db) (User_id_role u).

Definition Customer_constraints (db : DB) (c : Customer) : bool :=
  has_pk User_id_user (users db) (Customer_id_user c)
  && has_pk Genre_id_genre (genres db) (Customer_id_genre c)
  && has_pk Department_id_department (departments db)
       (Customer_id_department c)
  && has_pk City_id_city (citys db) (Customer_id_city c).

Definition Staff_constraints (db : DB) (s : Staff) : bool :=
  has_pk Barber_id_barber (barbers db) (Staff_id_barber s).

Definition Barbershop_constraints (db : DB) (b : Barbershop) : bool :=
  has_pk Staff_id_staff (staff db) (Barbershop_id_staff b).

Definition Barber_constraints (db : DB) (b : Barber) : bool :=
  has_pk User_id_user (users db) (Barber_id_user b)
  && has_pk Genre_id_genre (genres db) (Barber_id_genre b)
  && has_pk_opt Barbershop_id_barbershop (barbershops db)
       (Barber_id_barbershop b)
  && has_pk_opt Specialty_id_specialty (specialties db)
       (Barber_id_specialty b)
  && has_pk Department_id_department (departments db)
       (Barber_id_department b)
  && has_pk City_id_city (citys db) (Barber_id_city b)
  && has_pk_opt BarberSchedule_id_schedule (barber_schedule db)
       (Barber_id_barber_schedule b).

Definition Location_constraints (db : DB) (l : Location) : bool :=
  has_pk Barbershop_id_barbershop (barbershops db) (Location_id_barbershop l)
  && has_pk Department_id_department (departments db)
       (Location_id_department l)
  && has_pk City_id_city (citys db) (Location_id_city l).

Definition Appointment_constraints (db : DB) (a : Appointment) : bool :=
  has_pk Customer_id_customer (customers db) (Appointment_id_customer a)
  && has_pk Barber_id_barber (barbers db) (Appointment_id_barber a).

(** *** Updates and deletes *)

(** [appointment.status = status; db.commit()]: the UPDATE of the rows with
    the primary key of the loaded object. *)
Definition commit_status (a : Appointment) (status : AppointmentStatusEnum)
    : M unit :=
  fun db =>
    (Ok tt,
     set_appointment
       (mk_Table
          (map (fun r =>
                  if Appointment_id_appointment r
                     =? Appointment_id_appointment a
                  then Appointment_set_status r status
                  else r)
               (rows (appointment db)))
          (next_id (appointment db)))
       db).

(** [db.delete(staff); db.commit()]: the DELETE of the rows with the primary
    key of the loaded object.  [Barbershop.id_staff] is declared
    [ForeignKey("staff.id_staff"), nullable=False] and the relationship
    [Staff.barbershops] declares no cascade: for the barbershops of the
    deleted object the session can only blank the foreign key, which the
    column forbids, and the DELETE alone would leave them referring to no
    row.  The commit therefore raises while a barbershop refers to the
    row, and nothing is written. *)
Definition delete_commit_staff (s : Staff) : M unit :=
  fun db =>
    if existsb (fun b => Barbershop_id_staff b =? Staff_id_staff s)
         (rows (barbershops db))
    then (Err IntegrityError, db)
    else (Ok tt,
          set_staff
            (mk_Table
               (filter (fun r => negb (Staff_id_staff r =? Staff_id_staff s))
                  (rows (staff db)))
               (next_id (staff db)))
            db).

(** [raise HTTPException(status_code=404, detail=...)] when [.first()] gave
    [None]. *)
Definition or_404 {A : Type} (x : option A) (detail : string) : M A :=
  match x with
  | None => raise (HTTPException 404 detail)
  | Some a => ret a
  end.

(** ** Handlers, in the order of the source *)

Definition create_role (role : RoleCreate) : M Role :=
  add_commit_refresh roles set_roles Role_columns unconstrained
    (fun id => mk_Role id (RoleCreate_name role)).

Definition read_roles (skip limit : Z) : M (list Role) :=
  query_page roles skip limit.

Definition create_genre (genre : GenreCreate) : M Genre :=
  add_commit_refresh genres set_genres Genre_columns unconstrained
    (fun id => mk_Genre id (GenreCreate_name genre)).

Definition read_genres (skip limit : Z) : M (list Genre) :=
  query_page genres skip limit.

Definition create_department (department : DepartmentCreate) : M Department :=
  add_commit_refresh departments set_departments Department_columns
    unconstrained
    (fun id => mk_Department id (DepartmentCreate_name department)).

Definition read_departments (skip limit : Z) : M (list Department) :=
  query_page departments skip limit.

Definition create_city (city : CityCreate) : M City :=
  add_commit_refresh citys set_citys City_columns City_constraints
    (fun id =>
       mk_City id (CityCreate_name city) (CityCreate_id_department city)).

Definition read_cities (skip limit : Z) : M (list City) :=
  query_page citys skip limit.

Definition read_cities_by_department (department_id : Z) : M (list City) :=
  query_all citys (fun c => City_id_department c =? department_id).

(** [user.dict()] loses its [password] entry and gains [password_hash]
    with the popped value; the [User] object is built from the resulting
    dictionary. *)
Definition create_user (user : UserCreate) : M User :=
  let password := UserCreate_password user in
  add_commit_refresh users set_users User_columns User_constraints
    (fun id =>
       mk_User id (UserCreate_full_name user) (UserCreate_email user)
         (Some password) (UserCreate_id_role user)).

Definition read_users (skip limit : Z) : M (list User) :=
  query_page users skip limit.

Definition read_user (user_id : Z) : M User :=
  user <- query_first users (fun u => User_id_user u =? user_id) ;;
  or_404 user "User not found".

Definition create_customer (customer : CustomerCreate) : M Customer :=
  add_commit_refresh customers set_customers Customer_columns
    Customer_constraints
    (fun id =>
       mk_Customer id (CustomerCreate_id_user customer)
         (CustomerCreate_id_genre customer) (CustomerCreate_phone customer)
         (CustomerCreate_direction customer)
         (CustomerCreate_id_department customer)
         (CustomerCreate_id_city customer)).

Definition read_customers (skip limit : Z) : M (list Customer) :=
  query_page customers skip limit.

Definition read_customer (customer_id : Z) : M Customer :=
  customer <- query_first customers
                (fun c => Customer_id_customer c =? customer_id) ;;
  or_404 customer "Customer not found".

Definition create_specialty (specialty : SpecialtyCreate) : M Specialty :=
  add_commit_refresh specialties set_specialties Specialty_columns unconstrained
    (fun id =>
       mk_Specialty id (SpecialtyCreate_name specialty)
         (SpecialtyCreate_years_experience specialty)).

Definition read_specialties (skip limit : Z) : M (list Specialty) :=
  query_page specialties skip limit.

Definition create_barber_schedule (schedule : BarberScheduleCreate)
    : M BarberSchedule :=
  add_commit_refresh barber_schedule set_barber_schedule BarberSchedule_columns
    unconstrained
    (fun id =>
       mk_BarberSchedule id (BarberScheduleCreate_day_of_week schedule)
         (BarberScheduleCreate_start_time schedule)
         (BarberScheduleCreate_end_time schedule)).

Definition read_barber_schedules (skip limit : Z) : M (list BarberSchedule) :=
  query_page barber_schedule skip limit.

Definition create_barber (barber : BarberCreate) : M Barber :=
  add_commit_refresh barbers set_barbers Barber_columns Barber_constraints
    (fun id =>
       mk_Barber id (BarberCreate_id_user barber)
         (BarberCreate_id_genre barber) (BarberCreate_id_barbershop barber)
         (BarberCreate_id_specialty barber)
         (BarberCreate_id_department barber) (BarberCreate_id_city barber)
         (BarberCreate_id_barber_schedule barber) (BarberCreate_phone barber)
         (BarberCreate_direction barber) (BarberCreate_points barber)).

Definition read_barbers (skip limit : Z) : M (list Barber) :=
  query_page barbers skip limit.

Definition read_barber (barber_id : Z) : M Barber :=
  barber <- query_first barbers (fun b => Barber_id_barber b =? barber_id) ;;
  or_404 barber "Barber not found".

Definition read_barbers_by_city (city_id : Z) : M (list Barber) :=
  query_all barbers (fun b => Barber_id_city b =? city_id).

Definition create_staff (staff_in : StaffCreate) : M Staff :=
  add_commit_refresh staff set_staff Staff_columns Staff_constraints
    (fun id => mk_Staff id (StaffCreate_id_barber staff_in)).

Definition read_staff (skip limit : Z) : M (list Staff) :=
  query_page staff skip limit.

Definition read_staff_by_id (staff_id : Z) : M Staff :=
  found <- query_first staff (fun s => Staff_id_staff s =? staff_id) ;;
  or_404 found "Staff not found".

Definition read_staff_by_barber (barber_id : Z) : M Staff :=
  found <- query_first staff (fun s => Staff_id_barber s =? barber_id) ;;
  or_404 found "Staff not found for this barber".

Definition delete_staff (staff_id : Z) : M (list (string * string)) :=
  found <- query_first staff (fun s => Staff_id_staff s =? staff_id) ;;
  row <- or_404 found "Staff not found" ;;
  delete_commit_staff row ;;;
  ret [("message"%string, "Staff deleted successfully"%string)].

Definition create_barbershop (barbershop : BarbershopCreate) : M Barbershop :=
  add_commit_refresh barbershops set_barbershops Barbershop_columns
    Barbershop_constraints
    (fun id =>
       mk_Barbershop id (BarbershopCreate_id_staff barbershop)
         (BarbershopCreate_phone barbershop)).

Definition read_barbershops (skip limit : Z) : M (list Barbershop) :=
  query_page barbershops skip limit.

Definition create_location (location : LocationCreate) : M Location :=
  add_commit_refresh locations set_locations Location_columns
    Location_constraints
    (fun id =>
       mk_Location id (LocationCreate_id_barbershop location)
         (LocationCreate_id_department location)
         (LocationCreate_id_city location) (LocationCreate_address location)
         (LocationCreate_opening_hour location)
         (LocationCreate_closing_hour location)).

Definition read_locations (skip limit : Z) : M (list Location) :=
  query_page locations skip limit.

Definition create_appointment (appointment_in : AppointmentCreate)
    : M Appointment :=
  add_commit_refresh appointment set_appointment Appointment_columns
    Appointment_constraints
    (fun id =>
       mk_Appointment id (AppointmentCreate_id_customer appointment_in)
         (AppointmentCreate_id_barber appointment_in)
         (AppointmentCreate_appointment_date appointment_in)
         (AppointmentCreate_start_time appointment_in)
         (AppointmentCreate_end_time appointment_in)
         (Some (AppointmentCreate_status appointment_in))).

Definition read_appointments (skip limit : Z) : M (list Appointment) :=
  query_page appointment skip limit.

Definition read_appointment (appointment_id : Z) : M Appointment :=
  found <- query_first appointment
             (fun a => Appointment_id_appointment a =? appointment_id) ;;
  or_404 found "Appointment not found".

Definition update_appointment_status (appointment_id : Z)
    (status : AppointmentStatusEnum) : M (list (string * string)) :=
  found <- query_first appointment
             (fun a => Appointment_id_appointment a =? appointment_id) ;;
  row <- or_404 found "Appointment not found" ;;
  commit_status row status ;;;
  ret [("message"%string, "Appointment status updated successfully"%string)].

Definition read_appointments_by_customer (customer_id : Z)
    : M (list Appointment) :=
  query_all appointment (fun a => Appointment_id_customer a =? customer_id).

Definition read_appointments_by_barber (barber_id : Z)
    : M (list Appointment) :=
  query_all appointment (fun a => Appointment_id_barber a =? barber_id).

Definition read_root : M (list (string * string)) :=
  ret [("message"%string, "Welcome to Barberian DB API v2.0"%string)].

Definition health_check : M (list (string * string)) :=
  ret [("status"%string, "healthy"%string); ("version"%string, "2.0.0"%string)].

(** The dictionary of [get_stats], its nine entries in the order in which
    the source evaluates them. *)
Definition get_stats : M (list (string * Z)) :=
  n_users <- query_count users ;;
  n_customers <- query_count customers ;;
  n_barbers <- query_count barbers ;;
  n_staff <- query_count staff ;;
  n_appointments <- query_count appointment ;;
  n_barbershops <- query_count barbershops ;;
  n_specialties <- query_count specialties ;;
  n_departments <- query_count departments ;;
  n_cities <- query_count citys ;;
  ret [("users"%string, n_users); ("customers"%string, n_customers);
       ("barbers"%string, n_barbers); ("staff"%string, n_staff);
       ("appointments"%string, n_appointments);
       ("barbershops"%string, n_barbershops);
       ("specialties"%string, n_specialties);
       ("departments"%string, n_departments); ("cities"%string, n_cities)].

(** ** Responses of the user endpoints

    [response_model=UserResponse] with [from_attributes = True]: the
    response is built from the attributes of the returned object that the
    schema names.  [role] is the relationship of [User]: the [Role] row that
    [id_role] refers to, if any. *)








(** ** The API as a transition system

    One constructor per route of the application, and the store that a
    request leaves behind. *)

Inductive Request : Type :=
  | POST_roles (role : RoleCreate)
  | GET_roles (skip limit : Z)
  | POST_genres (genre : GenreCreate)
  | GET_genres (skip limit : Z)
  | POST_departments (department : DepartmentCreate)
  | GET_departments (skip limit : Z)
  | POST_cities (city : CityCreate)
  | GET_cities (skip limit : Z)
  | GET_cities_by_department (department_id : Z)
  | POST_users (user : UserCreate)
  | GET_users (skip limit : Z)
  | GET_user (user_id : Z)
  | POST_customers (customer : CustomerCreate)
  | GET_customers (skip limit : Z)
  | GET_customer (customer_id : Z)
  | POST_specialties (specialty : SpecialtyCreate)
  | GET_specialties (skip limit : Z)
  | POST_barber_schedules (schedule : BarberScheduleCreate)
  | GET_barber_schedules (skip limit : Z)
  | POST_barbers (barber : BarberCreate)
  | GET_barbers (skip limit : Z)
  | GET_barber (barber_id : Z)
  | GET_barbers_by_city (city_id : Z)
  | POST_staff (staff_in : StaffCreate)
  | GET_staff (skip limit : Z)
  | GET_staff_by_id (staff_id : Z)
  | GET_staff_by_barber (barber_id : Z)
  | DELETE_staff (staff_id : Z)
  | POST_barbershops (barbershop : BarbershopCreate)
  | GET_barbershops (skip limit : Z)
  | POST_locations (location : LocationCreate)
  | GET_locations (skip limit : Z)
  | POST_appointments (appointment_in : AppointmentCreate)
  | GET_appointments (skip limit : Z)
  | GET_appointment (appointment_id : Z)
  | PATCH_appointment_status (appointment_id : Z)
      (status : AppointmentStatusEnum)
  | GET_appointments_by_customer (customer_id : Z)
  | GET_appointments_by_barber (barber_id : Z)
  | GET_root
  | GET_health
  | GET_stats.

Definition after {A : Type} (handler : M A) (db : DB) : DB :=
  snd (handler db).

Definition serve (r : Request) (db : DB) : DB :=
  match r with
  | POST_roles role => after (create_role role) db
  | GET_roles skip limit => after (read_roles skip limit) db
  | POST_genres genre => after (create_genre genre) db
  | GET_genres skip limit => after (read_genres skip limit) db
  | POST_departments department => after (create_department department) db
  | GET_departments skip limit => after (read_departments skip limit) db
  | POST_cities city => after (create_city city) db
  | GET_cities skip limit => after (read_cities skip limit) db
  | GET_cities_by_department k => after (read_cities_by_department k) db
  | POST_users user => after (create_user user) db
  | GET_users skip limit => after (read_users skip limit) db
  | GET_user user_id => after (read_user user_id) db
  | POST_customers customer => after (create_customer customer) db
  | GET_customers skip limit => after (read_customers skip limit) db
  | GET_customer customer_id => after (read_customer customer_id) db
  | POST_specialties specialty => after (create_specialty specialty) db
  | GET_specialties skip limit => after (read_specialties skip limit) db
  | POST_barber_schedules schedule => after (create_barber_schedule schedule) db
  | GET_barber_schedules skip limit =>
      after (read_barber_schedules skip limit) db
  | POST_barbers barber => after (create_barber barber) db
  | GET_barbers skip limit => after (read_barbers skip limit) db
  | GET_barber barber_id => after (read_barber barber_id) db
  | GET_barbers_by_city city_id => after (read_barbers_by_city city_id) db
  | POST_staff staff_in => after (create_staff staff_in) db
  | GET_staff skip limit => after (read_staff skip limit) db
  | GET_staff_by_id staff_id => after (read_staff_by_id staff_id) db
  | GET_staff_by_barber barber_id => after (read_staff_by_barber barber_id) db
  | DELETE_staff staff_id => after (delete_staff staff_id) db
  | POST_barbershops barbershop => after (create_barbershop barbershop) db
  | GET_barbershops skip limit => after (read_barbershops skip limit) db
  | POST_locations location => after (create_location location) db
  | GET_locations skip limit => after (read_locations skip limit) db
  | POST_appointments appointment_in =>
      after (create_appointment appointment_in) db
  | GET_appointments skip limit => after (read_appointments skip limit) db
  | GET_appointment appointment_id =>
      after (read_appointment appointment_id) db
  | PATCH_appointment_status appointment_id status =>
      after (update_appointment_status appointment_id status) db
  | GET_appointments_by_customer customer_id =>
      after (read_appointments_by_customer customer_id) db
  | GET_appointments_by_barber barber_id =>
      after (read_appointments_by_barber barber_id) db
  | GET_root => after read_root db
  | GET_health => after health_check db
  | GET_stats => after get_stats db
  end.

(** The stores that the API can reach from the empty one. *)
Inductive reachable : DB -> Prop :=
  | reachable_empty : reachable empty_db
  | reachable_serve (r : Request) (db : DB) :
      reachable db -> reachable (serve r db).

Definition is_status_update (r : Request) : bool :=
  match r with
  | PATCH_appointment_status _ _ => true
  | _ => false
  end.

(** ** Well-formed stores

    The primary keys of a table are pairwise distinct and below the
    counter, and no two users have the same email. *)

Definition keys_ok {R : Type} (pk : R -> Z) (t : Table R) : Prop :=
  NoDup (map pk (rows t)) /\ Forall (fun r => pk r < next_id t) (rows t).

Record wf (db : DB) : Prop := mk_wf
    { wf_roles : keys_ok Role_id_role (roles db);
      wf_genres : keys_ok Genre_id_genre (genres db);
      wf_departments : keys_ok Department_id_department (departments db);
      wf_citys : keys_ok City_id_city (citys db);
      wf_users : keys_ok User_id_user (users db);
      wf_specialties : keys_ok Specialty_id_specialty (specialties db);
      wf_barber_schedule :
        keys_ok BarberSchedule_id_schedule (barber_schedule db);
      wf_customers : keys_ok Customer_id_customer (customers db);
      wf_staff : keys_ok Staff_id_staff (staff db);
      wf_barbershops : keys_ok Barbershop_id_barbershop (barbershops db);
      wf_barbers : keys_ok Barber_id_barber (barbers db);
      wf_locations : keys_ok Location_id_location (locations db);
      wf_appointment : keys_ok Appointment_id_appointment (appointment db);
      wf_emails : NoDup (map User_email (rows (users db))) }.

(** Every foreign key of every row refers to a row of the store. *)
Record references_ok (db : DB) : Prop := mk_references_ok
    { ref_citys :
        Forall (fun c => City_constraints db c = true) (rows (citys db));
      ref_users :
        Forall (fun u =>
                  has_pk_opt Role_id_role (roles db) (User_id_role u) = true)
          (rows (users db));
      ref_customers :
        Forall (fun c => Customer_constraints db c = true)
          (rows (customers db));
      ref_staff :
        Forall (fun s => Staff_constraints db s = true) (rows (staff db));
      ref_barbershops :
        Forall (fun b => Barbershop_constraints db b = true)
          (rows (barbershops db));
      ref_barbers :
        Forall (fun b => Barber_constraints db b = true) (rows (barbers db));
      ref_locations :
        Forall (fun l => Location_constraints db l = true)
          (rows (locations db));
      ref_appointment :
        Forall (fun a => Appointment_constraints db a = true)
          (rows (appointment db)) }.

(** Every row of a table that a foreign key can refer to is still there. *)
Record extends (db db' : DB) : Prop := mk_extends
    { ext_roles : incl (rows (roles db)) (rows (roles db'));
      ext_genres : incl (rows (genres db)) (rows (genres db'));
      ext_departments : incl (rows (departments db)) (rows (departments db'));
      ext_citys : incl (rows (citys db)) (rows (citys db'));
      ext_users : incl (rows (users db)) (rows (users db'));
      ext_specialties : incl (rows (specialties db)) (rows (specialties db'));
      ext_barber_schedule :
        incl (rows (barber_schedule db)) (rows (barber_schedule db'));
      ext_customers : incl (rows (customers db)) (rows (customers db'));
      ext_staff : incl (rows (staff db)) (rows (staff db'));
      ext_barbershops : incl (rows (barbershops db)) (rows (barbershops db'));
      ext_barbers : incl (rows (barbers db)) (rows (barbers db')) }.

(** ** Vocabulary of the statements *)

(** The two stores agree on every table but [appointment]. *)
Definition same_outside_appointment (db db' : DB) : Prop :=
  auth_provider db' = auth_provider db /\
  roles db' = roles db /\
  genres db' = genres db /\
  departments db' = departments db /\
  citys db' = citys db /\
  users db' = users db /\
  user_auth_provider db' = user_auth_provider db /\
  specialties db' = specialties db /\
  barber_schedule db' = barber_schedule db /\
  customers db' = customers db /\
  staff db' = staff db /\
  barbershops db' = barbershops db /\
  barbers db' = barbers db /\
  locations db' = locations db.

(** The two stores hold the same rows, table by table; a counter may have
    moved. *)
Definition same_rows (db db' : DB) : Prop :=
  rows (auth_provider db') = rows (auth_provider db) /\
  rows (roles db') = rows (roles db) /\
  rows (genres db') = rows (genres db) /\
  rows (departments db') = rows (departments db) /\
  rows (citys db') = rows (citys db) /\
  rows (users db') = rows (users db) /\
  user_auth_provider db' = user_auth_provider db /\
  rows (specialties db') = rows (specialties db) /\
  rows (barber_schedule db') = rows (barber_schedule db) /\
  rows (customers db') = rows (customers db) /\
  rows (staff db') = rows (staff db) /\
  rows (barbershops db') = rows (barbershops db) /\
  rows (barbers db') = rows (barbers db) /\
  rows (locations db') = rows (locations db) /\
  rows (appointment db') = rows (appointment db).

(** The two rows agree on every column but [status]. *)
Definition same_outside_status (a a' : Appointment) : Prop :=
  Appointment_id_appointment a' = Appointment_id_appointment a /\
  Appointment_id_customer a' = Appointment_id_customer a /\
  Appointment_id_barber a' = Appointment_id_barber a /\
  Appointment_appointment_date a' = Appointment_appointment_date a /\
  Appointment_start_time a' = Appointment_start_time a /\
  Appointment_end_time a' = Appointment_end_time a.

(** The result holds the rows of the table whose foreign key is [k], all
    of them and no other row, and is empty when the table has none. *)
Definition exactly_matching {R : Type} (fk : R -> Z) (k : Z)
    (table result : list R) : Prop :=
  (forall x, In x result <-> In x table /\ fk x = k) /\
  ((forall x, In x table -> fk x <> k) -> result = []).






(** ** A sample store

    A store reached from the empty one, to run the handlers on: one user
    who is a customer, one who is a barber, two staff rows for that barber,
    a barbershop of the first of them, and two appointments. *)

Definition nine : time := mk_time 9 0 0.
Definition ten : time := mk_time 10 0 0.
Definition a_monday : date := mk_date 2025 9 1.

Definition sample_requests : list Request :=
  [ POST_roles (mk_RoleCreate "admin");
    POST_genres (mk_GenreCreate "other");
    POST_departments (mk_DepartmentCreate "Antioquia");
    POST_cities (mk_CityCreate "Medellin" 1);
    POST_users (mk_UserCreate "Ana" "ana@example.com" (Some 1) "secret");
    POST_users (mk_UserCreate "Beto" "beto@example.com" None "hunter2");
    POST_customers (mk_CustomerCreate 1 1 None None 1 1);
    POST_barbers (mk_BarberCreate 2 1 None None 1 1 None None None 0);
    POST_staff (mk_StaffCreate 1);
    POST_staff (mk_StaffCreate 1);
    POST_barbershops (mk_BarbershopCreate 1 None);
    POST_appointments
      (AppointmentCreate_parse 1 1 a_monday nine ten None);
    POST_appointments
      (AppointmentCreate_parse 1 1 a_monday ten nine (Some done)) ].

Definition sample_db : DB :=
  Eval vm_compute in
    fold_left (fun db r => serve r db) sample_requests empty_db.

(** ** More vocabulary of the statements *)

(** Some row of the table has primary key [k]. *)
Definition refers {R : Type} (pk : R -> Z) (t : Table R) (k : Z) : Prop :=
  exists r, In r (rows t) /\ pk r = k.

(** A nullable foreign key is NULL or refers to a row. *)
Definition refers_opt {R : Type} (pk : R -> Z) (t : Table R) (k : option Z)
    : Prop :=
  match k with
  | None => True
  | Some k => refers pk t k
  end.

(** What a create handler does with the references of its payload, where
    [refs payload db] says that each of them is the id of a row of [db]: a
    create that succeeds found them all, gave the new row the counter as
    its id and put it last in its table; a create with a reference to no
    row fails, with the error of the refused commit, and no table gains or
    loses a row. *)
Definition checks_references {P R : Type} (create : P -> M R)
    (tbl : DB -> Table R) (pk : R -> Z) (refs : P -> DB -> Prop) : Prop :=
  forall (payload : P) (db : DB),
    (forall row db',
       create payload db = (Ok row, db') ->
       refs payload db /\ pk row = next_id (tbl db) /\
       rows (tbl db') = rows (tbl db) ++ [row]) /\
    (~ refs payload db ->
     (fst (create payload db) = Err IntegrityError \/
      fst (create payload db) = Err DataError) /\
     same_rows db (snd (create payload db))).

(** What a get-by-id handler does with the table it reads: 404 with its
    own message exactly when no row has the id, and otherwise the first row
    with the id; the store is left as it was. *)
Definition gets_by_id {R : Type} (handler : Z -> M R) (tbl : DB -> Table R)
    (pk : R -> Z) (detail : string) : Prop :=
  forall (k : Z) (db : DB),
    (~ refers pk (tbl db) k <->
     handler k db = (Err (HTTPException 404 detail), db)) /\
    (forall x, handler k db = (Ok x, db) <->
       exists before after_,
         rows (tbl db) = before ++ x :: after_ /\ pk x = k /\
         forall y, In y before -> pk y <> k) /\
    snd (handler k db) = db.

(** What holds of a create handler and the get-by-id handler of the same
    table, in a table whose keys are below the counter: the created row
    carries the counter as its id, no row before had that id, and fetching
    that id in the store the create leaves returns the created row. *)
Definition fetches_created {P R : Type} (create : P -> M R) (get : Z -> M R)
    (tbl : DB -> Table R) (pk : R -> Z) : Prop :=
  forall (payload : P) (db db' : DB) (row : R),
    keys_ok pk (tbl db) ->
    create payload db = (Ok row, db') ->
    pk row = next_id (tbl db) /\
    ~ refers pk (tbl db) (pk row) /\
    get (pk row) db' = (Ok row, db').

(** [l] is a page of [table] at offset [skip] with at most [limit] rows:
    rows of the table, none of them more often than the table has it, as
    many as [limit] and the rows after the first [skip] allow.  Which rows
    they are and how they are arranged depends on the order in which the
    store reads the table; the statement says nothing of it. *)
Definition page_of {R : Type} (table : list R) (skip limit : Z) (l : list R)
    : Prop :=
  (exists rest, Permutation (l ++ rest) table) /\
  Z.of_nat (List.length l)
  = Z.min limit (Z.max 0 (Z.of_nat (List.length table) - skip)).

(** What a list handler does with the table it reads: it never writes; it
    raises when [skip] or [limit] is no row count; otherwise it returns a
    page, which is the whole table, in some order, when [skip] is 0 and
    [limit] is at least the size of the table. *)
Definition lists_pages {R : Type} (handler : Z -> Z -> M (list R))
    (tbl : DB -> Table R) : Prop :=
  forall (skip limit : Z) (db : DB),
    snd (handler skip limit db) = db /\
    (skip < 0 \/ limit < 0 \/ 2 ^ 64 <= skip \/ 2 ^ 64 <= limit ->
     fst (handler skip limit db) = Err ProgrammingError) /\
    (0 <= skip < 2 ^ 64 -> 0 <= limit < 2 ^ 64 ->
     exists l, fst (handler skip limit db) = Ok l /\
               page_of (rows (tbl db)) skip limit l) /\
    (Z.of_nat (List.length (rows (tbl db))) <= limit < 2 ^ 64 ->
     exists l, fst (handler 0 limit db) = Ok l /\
               Permutation l (rows (tbl db))).

(** The exception that ends the handler, if any. *)
Definition raised {A : Type} (handler : M A) (db : DB) : option Error :=
  match fst (handler db) with
  | Ok _ => None
  | Err e => Some e
  end.

(** The exception that ends a request, route by route. *)
Definition error_of (r : Request) (db : DB) : option Error :=
  match r with
  | POST_roles role => raised (create_role role) db
  | GET_roles skip limit => raised (read_roles skip limit) db
  | POST_genres genre => raised (create_genre genre) db
  | GET_genres skip limit => raised (read_genres skip limit) db
  | POST_departments department => raised (create_department department) db
  | GET_departments skip limit => raised (read_departments skip limit) db
  | POST_cities city => raised (create_city city) db
  | GET_cities skip limit => raised (read_cities skip limit) db
  | GET_cities_by_department k => raised (read_cities_by_department k) db
  | POST_users user => raised (create_user user) db
  | GET_users skip limit => raised (read_users skip limit) db
  | GET_user user_id => raised (read_user user_id) db
  | POST_customers customer => raised (create_customer customer) db
  | GET_customers skip limit => raised (read_customers skip limit) db
  | GET_customer customer_id => raised (read_customer customer_id) db
  | POST_specialties specialty => raised (create_specialty specialty) db
  | GET_specialties skip limit => raised (read_specialties skip limit) db
  | POST_barber_schedules schedule =>
      raised (create_barber_schedule schedule) db
  | GET_barber_schedules skip limit =>
      raised (read_barber_schedules skip limit) db
  | POST_barbers barber => raised (create_barber barber) db
  | GET_barbers skip limit => raised (read_barbers skip limit) db
  | GET_barber barber_id => raised (read_barber barber_id) db
  | GET_barbers_by_city city_id => raised (read_barbers_by_city city_id) db
  | POST_staff staff_in => raised (create_staff staff_in) db
  | GET_staff skip limit => raised (read_staff skip limit) db
  | GET_staff_by_id staff_id => raised (read_staff_by_id staff_id) db
  | GET_staff_by_barber barber_id => raised (read_staff_by_barber barber_id) db
  | DELETE_staff staff_id => raised (delete_staff staff_id) db
  | POST_barbershops barbershop => raised (create_barbershop barbershop) db
  | GET_barbershops skip limit => raised (read_barbershops skip limit) db
  | POST_locations location => raised (create_location location) db
  | GET_locations skip limit => raised (read_locations skip limit) db
  | POST_appointments appointment_in =>
      raised (create_appointment appointment_in) db
  | GET_appointments skip limit => raised (read_appointments skip limit) db
  | GET_appointment appointment_id =>
      raised (read_appointment appointment_id) db
  | PATCH_appointment_status appointment_id status =>
      raised (update_appointment_status appointment_id status) db
  | GET_appointments_by_customer customer_id =>
      raised (read_appointments_by_customer customer_id) db
  | GET_appointments_by_barber barber_id =>
      raised (read_appointments_by_barber barber_id) db
  | GET_root => raised read_root db
  | GET_health => raised health_check db
  | GET_stats => raised get_stats db
  end.

(** The routes registered with [@app.get]. *)
Definition is_get (r : Request) : bool :=
  match r with
  | GET_roles _ _ | GET_genres _ _ | GET_departments _ _ | GET_cities _ _
  | GET_cities_by_department _ | GET_users _ _ | GET_user _
  | GET_customers _ _ | GET_customer _ | GET_specialties _ _
  | GET_barber_schedules _ _ | GET_barbers _ _ | GET_barber _
  | GET_barbers_by_city _ | GET_staff _ _ | GET_staff_by_id _
  | GET_staff_by_barber _ | GET_barbershops _ _ | GET_locations _ _
  | GET_appointments _ _ | GET_appointment _ | GET_appointments_by_customer _
  | GET_appointments_by_barber _ | GET_root | GET_health | GET_stats => true
  | _ => false
  end.

(** The routes registered with [@app.post]. *)
Definition is_post (r : Request) : bool :=
  match r with
  | POST_roles _ | POST_genres _ | POST_departments _ | POST_cities _
  | POST_users _ | POST_customers _ | POST_specialties _
  | POST_barber_schedules _ | POST_barbers _ | POST_staff _
  | POST_barbershops _ | POST_locations _ | POST_appointments _ => true
  | _ => false
  end.

(** The table of [db'] is the table of [db] with rows added at its end. *)
Definition appends {R : Type} (tbl : DB -> Table R) (db db' : DB) : Prop :=
  exists new, rows (tbl db') = rows (tbl db) ++ new.

Definition is_delete (r : Request) : bool :=
  match r with
  | DELETE_staff _ => true
  | _ => false
  end.

(** The rows are in strictly increasing order of their primary key. *)
Definition ascending {R : Type} (pk : R -> Z) (l : list R) : Prop :=
  StronglySorted (fun a b => pk a < pk b) l.

Record ordered (db : DB) : Prop := mk_ordered
    { ord_roles : ascending Role_id_role (rows (roles db));
      ord_genres : ascending Genre_id_genre (rows (genres db));
      ord_departments :
        ascending Department_id_department (rows (departments db));
      ord_citys : ascending City_id_city (rows (citys db));
      ord_users : ascending User_id_user (rows (users db));
      ord_specialties :
        ascending Specialty_id_specialty (rows (specialties db));
      ord_barber_schedule :
        ascending BarberSchedule_id_schedule (rows (barber_schedule db));
      ord_customers : ascending Customer_id_customer (rows (customers db));
      ord_staff : ascending Staff_id_staff (rows (staff db));
      ord_barbershops :
        ascending Barbershop_id_barbershop (rows (barbershops db));
      ord_barbers : ascending Barber_id_barber (rows (barbers db));
      ord_locations : ascending Location_id_location (rows (locations db));
      ord_appointment :
        ascending Appointment_id_appointment (rows (appointment db)) }.



(** ** The connection test script, [backend/test_connection.py]

    The script talks to a MySQL server and prints what it finds.  What the
    server does is an input of the model: each call that can raise is
    either [None] (it returned) or [Some message] (it raised an exception
    whose text is [message]).  What the script prints is a list of
    strings, one per call of [print]. *)

Definition newline : string := String (Ascii.ascii_of_nat 10) EmptyString.

(** [s * n] *)
Fixpoint times (s : string) (n : nat) : string :=
  match n with
  | O => EmptyString
  | S n => (s ++ times s n)%string
  end.

Definition print_separator (title : string) : list string :=
  (newline ++ times "=" 60)%string ::
  match title with
  | EmptyString => []
  | _ => [("  " ++ title)%string; times "=" 60]
  end.

(** One run of the calls of [test_database_permissions], in the order of
    the source. *)
Record PermissionsRun : Set := mk_PermissionsRun
    { run_connect : option string;
      run_cursor : option string;
      run_select : option string;
      run_create_table : option string;
      run_insert : option string;
      run_update : option string;
      run_delete : option string;
      run_drop_table : option string;
      run_cursor_close : option string;
      run_connection_close : option string }.

(** The inner [try] over the five statements that modify: each prints its
    line when it returns, the first that raises ends the block with one
    line for the exception. *)
Definition modification_checks (run : PermissionsRun) : list string :=
  let failed e := ["❌ Error in modification permissions: " ++ e]%string in
  match run_create_table run with
  | Some e => failed e
  | None =>
    "✅ CREATE permissions: OK"%string ::
    match run_insert run with
    | Some e => failed e
    | None =>
      "✅ INSERT permissions: OK"%string ::
      match run_update run with
      | Some e => failed e
      | None =>
        "✅ UPDATE permissions: OK"%string ::
        match run_delete run with
        | Some e => failed e
        | None =>
          "✅ DELETE permissions: OK"%string ::
          match run_drop_table run with
          | Some e => failed e
          | None => ["✅ DROP permissions: OK"%string]
          end
        end
      end
    end
  end.

Definition test_database_permissions (run : PermissionsRun)
    : list string * bool :=
  let banner := print_separator "TESTING DATABASE PERMISSIONS" in
  let failed out e :=
    (out ++ ["❌ Error testing permissions: " ++ e]%string, false) in
  match run_connect run with
  | Some e => failed banner e
  | None =>
    match run_cursor run with
    | Some e => failed banner e
    | None =>
      let select_line :=
        match run_select run with
        | None => "✅ SELECT permissions: OK"%string
        | Some e => ("❌ SELECT permissions: " ++ e)%string
        end in
      let out := banner ++ [select_line] ++ modification_checks run in
      match run_cursor_close run with
      | Some e => failed out e
      | None =>
        match run_connection_close run with
        | Some e => failed out e
        | None => (out, true)
        end
      end
    end
  end.

(** The five statements of the inner [try], in the order of the source,
    each with what it raised, if anything. *)
Definition modifying_statements (run : PermissionsRun)
    : list (option string) :=
  [run_create_table run; run_insert run; run_update run; run_delete run;
   run_drop_table run].

(** The lines that report the five statements as permitted. *)
Definition permitted_lines : list string :=
  ["✅ CREATE permissions: OK"; "✅ INSERT permissions: OK";
   "✅ UPDATE permissions: OK"; "✅ DELETE permissions: OK";
   "✅ DROP permissions: OK"]%string.

(** The first of the results that is an exception, with its position. *)
Fixpoint first_raised (results : list (option string))
    : option (nat * string) :=
  match results with
  | [] => None
  | Some e :: _ => Some (O, e)
  | None :: results =>
      match first_raised results with
      | Some (n, e) => Some (S n, e)
      | None => None
      end
  end.

(** The line that reports the SELECT. *)
Definition select_line (run : PermissionsRun) : string :=
  match run_select run with
  | None => "✅ SELECT permissions: OK"
  | Some e => "❌ SELECT permissions: " ++ e
  end.

(** [str(n)] for an integer. *)
Definition str (n : Z) : string := NilZero.string_of_int (Z.to_int n).

(** The entries of [DB_CONFIG] that [main] prints. *)
Definition DB_CONFIG_host : string := "localhost".
Definition DB_CONFIG_port : Z := 3306.
Definition DB_CONFIG_database : string := "barberian_db".

(** [main]: the output of [show_diagnostics] and the output and result of
    the two connection tests are inputs; the permission test is the one
    above. *)
Definition main (diagnostics : list string)
    (pymysql_connection sqlalchemy_connection : list string * bool)
    (run : PermissionsRun) : list string :=
  let permissions := test_database_permissions run in
  let total_tests := 3 in
  let tests_passed :=
    (if snd pymysql_connection then 1 else 0)
    + (if snd sqlalchemy_connection then 1 else 0)
    + (if snd permissions then 1 else 0) in
  ["🚀 STARTING DATABASE CONNECTION TESTS"%string;
   ("🎯 Target: " ++ DB_CONFIG_host ++ ":" ++ str DB_CONFIG_port ++ "/"
    ++ DB_CONFIG_database)%string]
  ++ diagnostics
  ++ fst pymysql_connection
  ++ fst sqlalchemy_connection
  ++ fst permissions
  ++ print_separator "FINAL RESULT"
  ++ [("🏆 Successful tests: " ++ str tests_passed ++ "/"
       ++ str total_tests)%string]
  ++ (if tests_passed =? total_tests
      then ["🎉 ALL TESTS PASSED!"%string;
            "✅ Your database is ready to use with FastAPI"%string;
            (newline ++ "📌 Next steps:")%string;
            "   1. Update the configuration in main.py"%string;
            "   2. Run: python main.py"%string;
            "   3. Go to: http://localhost:8000"%string]
      else if tests_passed >? 0
      then ["⚠️  SOME TESTS FAILED"%string;
            "💡 Check the errors shown above"%string]
      else ["💥 ALL TESTS FAILED"%string;
            "🔧 Common solutions:"%string;
            "   - Make sure MySQL is running"%string;
            "   - Check user and password"%string;
            "   - Confirm the database exists"%string;
            "   - Make sure the user has permissions"%string]).

(** * Properties *)

(** ** The primitives *)

Lemma add_commit_refresh_cases {R : Type} (tbl : DB -> Table R)
    (set : Table R -> DB -> DB) (columns : R -> bool)
    (check : DB -> R -> bool) (obj : Z -> R) (db : DB) :
  let row := obj (next_id (tbl db)) in
  (columns row = true /\ check db row = true /\
   add_commit_refresh tbl set columns check obj db =
     (Ok row,
      set (mk_Table (rows (tbl db) ++ [row]) (next_id (tbl db) + 1)) db))
  \/
  (columns row = true /\ check db row = false /\
   add_commit_refresh tbl set columns check obj db =
     (Err IntegrityError,
      set (mk_Table (rows (tbl db)) (next_id (tbl db) + 1)) db))
  \/
  (columns row = false /\
   add_commit_refresh tbl set columns check obj db = (Err DataError, db)).
Proof.
  unfold add_commit_refresh; cbv zeta.
  destruct (columns (obj (next_id (tbl db))));
    destruct (check db (obj (next_id (tbl db)))); auto.
Qed.

Lemma add_commit_refresh_ok {R : Type} (tbl : DB -> Table R)
    (set : Table R -> DB -> DB) (columns : R -> bool)
    (check : DB -> R -> bool) (obj : Z -> R) (db db' : DB) (row : R) :
  add_commit_refresh tbl set columns check obj db = (Ok row, db') ->
  row = obj (next_id (tbl db)) /\
  columns row = true /\ check db row = true /\
  db' = set (mk_Table (rows (tbl db) ++ [row]) (next_id (tbl db) + 1)) db.
Proof.
  unfold add_commit_refresh; cbv zeta.
  destruct (columns (obj (next_id (tbl db)))) eqn:C;
    destruct (check db (obj (next_id (tbl db)))) eqn:K;
    intros H; try discriminate.
  injection H as <- <-. auto.
Qed.

Lemma query_page_after {R : Type} (tbl : DB -> Table R) (skip limit : Z)
    (db : DB) :
  after (query_page tbl skip limit) db = db.
Proof.
  unfold after, query_page.
  destruct (row_count skip && row_count limit); reflexivity.
Qed.

Lemma query_first_or_404_after {R : Type} (tbl : DB -> Table R)
    (p : R -> bool) (detail : string) (db : DB) :
  after (found <- query_first tbl p ;; or_404 found detail) db = db.
Proof.
  unfold after, bind, query_first, or_404.
  destruct (find p (rows (tbl db))); reflexivity.
Qed.

Lemma has_pk_true {R : Type} (pk : R -> Z) (t : Table R) (k : Z) :
  has_pk pk t k = true <-> exists r, In r (rows t) /\ pk r = k.
Proof.
  unfold has_pk. rewrite existsb_exists.
  split; intros [r [Hin Hk]]; exists r; split; auto.
  - now apply Z.eqb_eq.
  - now apply Z.eqb_eq.
Qed.

Lemma find_pk_some {R : Type} (pk : R -> Z) (l : list R) (k : Z) (r : R) :
  find (fun x => pk x =? k) l = Some r -> In r l /\ pk r = k.
Proof.
  intros H. apply find_some in H. destruct H as [Hin Hk].
  split; [assumption | now apply Z.eqb_eq].
Qed.

Lemma find_pk_none {R : Type} (pk : R -> Z) (l : list R) (k : Z) :
  find (fun x => pk x =? k) l = None <-> (forall r, In r l -> pk r <> k).
Proof.
  split.
  - intros H r Hin Hk.
    apply (find_none _ _ H) in Hin. apply Z.eqb_neq in Hin. contradiction.
  - induction l as [|x l IH]; intros H; simpl; [reflexivity|].
    destruct (pk x =? k) eqn:E.
    + apply Z.eqb_eq in E. exfalso. apply (H x); simpl; auto.
    + apply IH. intros r Hin. apply H. simpl; auto.
Qed.

(** ** Primary keys stay distinct *)

Lemma keys_ok_empty {R : Type} (pk : R -> Z) : keys_ok pk empty_table.
Proof.
  split; simpl; constructor.
Qed.

Lemma keys_ok_insert {R : Type} (pk : R -> Z) (t : Table R) (row : R) :
  keys_ok pk t -> pk row = next_id t ->
  keys_ok pk (mk_Table (rows t ++ [row]) (next_id t + 1)).
Proof.
  intros [Hnd Hlt] Hpk. split; simpl.
  - rewrite map_app. simpl.
    apply NoDup_app; [assumption | repeat constructor; simpl; tauto |].
    intros k Hin [Hk | []]. subst k.
    apply in_map_iff in Hin. destruct Hin as [r [Hr Hin]].
    rewrite Forall_forall in Hlt. specialize (Hlt r Hin). lia.
  - apply Forall_app. split.
    + eapply Forall_impl; [| exact Hlt]. simpl. intros; lia.
    + constructor; [lia | constructor].
Qed.

Lemma keys_ok_bump {R : Type} (pk : R -> Z) (t : Table R) :
  keys_ok pk t -> keys_ok pk (mk_Table (rows t) (next_id t + 1)).
Proof.
  intros [Hnd Hlt]. split; simpl; [assumption|].
  eapply Forall_impl; [| exact Hlt]. simpl. intros; lia.
Qed.

Lemma NoDup_map_filter {R : Type} (pk : R -> Z) (p : R -> bool) (l : list R) :
  NoDup (map pk l) -> NoDup (map pk (filter p l)).
Proof.
  induction l as [|x l IH]; simpl; intros H; [constructor|].
  inversion H as [|? ? Hnot Hnd]; subst.
  destruct (p x); simpl; [constructor|]; auto.
  intros Hin. apply Hnot.
  apply in_map_iff in Hin. destruct Hin as [r [Hr Hin]].
  apply filter_In in Hin. apply in_map_iff. exists r. tauto.
Qed.

Lemma keys_ok_filter {R : Type} (pk : R -> Z) (p : R -> bool) (t : Table R) :
  keys_ok pk t -> keys_ok pk (mk_Table (filter p (rows t)) (next_id t)).
Proof.
  intros [Hnd Hlt]. split; simpl.
  - now apply NoDup_map_filter.
  - rewrite Forall_forall in *. intros r Hin.
    apply filter_In in Hin. apply Hlt. tauto.
Qed.

Lemma keys_ok_map {R : Type} (pk : R -> Z) (f : R -> R) (t : Table R) :
  (forall r, pk (f r) = pk r) ->
  keys_ok pk t -> keys_ok pk (mk_Table (map f (rows t)) (next_id t)).
Proof.
  intros Hf [Hnd Hlt]. split; simpl.
  - rewrite map_map. erewrite map_ext; [exact Hnd | exact Hf].
  - rewrite Forall_forall in *. intros r Hin.
    apply in_map_iff in Hin. destruct Hin as [x [Hx Hin]]. subst r.
    rewrite Hf. now apply Hlt.
Qed.

(** ** The two handlers that rewrite rows *)

Lemma update_appointment_status_cases (appointment_id : Z)
    (status : AppointmentStatusEnum) (db : DB) :
  (find (fun a => Appointment_id_appointment a =? appointment_id)
     (rows (appointment db)) = None /\
   update_appointment_status appointment_id status db =
     (Err (HTTPException 404 "Appointment not found"), db))
  \/
  (exists a,
     find (fun a => Appointment_id_appointment a =? appointment_id)
       (rows (appointment db)) = Some a /\
     update_appointment_status appointment_id status db =
       (Ok [("message"%string,
             "Appointment status updated successfully"%string)],
        set_appointment
          (mk_Table
             (map (fun r =>
                     if Appointment_id_appointment r =? appointment_id
                     then Appointment_set_status r status
                     else r)
                (rows (appointment db)))
             (next_id (appointment db)))
          db)).
Proof.
  unfold update_appointment_status, bind, query_first, or_404.
  destruct (find _ (rows (appointment db))) as [a|] eqn:E.
  - right. exists a. split; [reflexivity|].
    apply find_pk_some in E. destruct E as [_ E].
    unfold ret, commit_status. rewrite E. reflexivity.
  - left. split; reflexivity.
Qed.

Lemma delete_staff_cases (staff_id : Z) (db : DB) :
  (find (fun s => Staff_id_staff s =? staff_id) (rows (staff db)) = None /\
   delete_staff staff_id db =
     (Err (HTTPException 404 "Staff not found"), db))
  \/
  (find (fun s => Staff_id_staff s =? staff_id) (rows (staff db)) <> None /\
   existsb (fun b => Barbershop_id_staff b =? staff_id)
     (rows (barbershops db)) = true /\
   delete_staff staff_id db = (Err IntegrityError, db))
  \/
  (find (fun s => Staff_id_staff s =? staff_id) (rows (staff db)) <> None /\
   existsb (fun b => Barbershop_id_staff b =? staff_id)
     (rows (barbershops db)) = false /\
   delete_staff staff_id db =
     (Ok [("message"%string, "Staff deleted successfully"%string)],
      set_staff
        (mk_Table
           (filter (fun r => negb (Staff_id_staff r =? staff_id))
              (rows (staff db)))
           (next_id (staff db)))
        db)).
Proof.
  unfold delete_staff, bind, query_first, or_404.
  destruct (find _ (rows (staff db))) as [s|] eqn:E.
  - right. apply find_pk_some in E. destruct E as [_ E].
    unfold ret, delete_commit_staff. rewrite E.
    destruct (existsb _ (rows (barbershops db))); [left | right];
      repeat split; congruence.
  - left. split; reflexivity.
Qed.

(** ** Well-formedness is an invariant of the API *)

Lemma wf_empty : wf empty_db.
Proof.
  constructor; try apply keys_ok_empty. constructor.
Qed.

Lemma email_taken (db : DB) (email : string) :
  existsb (fun v => String.eqb (User_email v) email) (rows (users db)) = true
  <-> In email (map User_email (rows (users db))).
Proof.
  rewrite existsb_exists, in_map_iff.
  split; intros [v [H1 H2]]; exists v.
  - apply String.eqb_eq in H2. tauto.
  - split; [tauto|]. apply String.eqb_eq. tauto.
Qed.

Lemma create_user_wf (user : UserCreate) (db : DB) :
  wf db -> wf (after (create_user user) db).
Proof.
  intros H. unfold after, create_user.
  match goal with
  | |- context [add_commit_refresh ?t ?s ?f ?c ?o ?d] =>
      destruct (add_commit_refresh_cases t s f c o d)
        as [[_ [C E]] | [[_ [_ E]] | [_ E]]]
  end; rewrite E; cbn [snd]; [| | exact H].
  2: { destruct H; constructor; cbn; try assumption.
       now apply keys_ok_bump. }
  destruct H; constructor; cbn; try assumption.
  - apply keys_ok_insert; [assumption | reflexivity].
  - rewrite map_app. cbn.
    apply NoDup_app; [assumption | repeat constructor; simpl; tauto |].
    intros e Hin [He | []]. subst e.
    unfold User_constraints in C. apply andb_prop in C. destruct C as [C _].
    apply negb_true_iff in C. apply email_taken in Hin. cbn in C.
    congruence.
Qed.

Ltac after_add :=
  match goal with
  | |- context [after (add_commit_refresh ?t ?s ?f ?c ?o) ?db] =>
      let E := fresh "E" in
      unfold after;
      destruct (add_commit_refresh_cases t s f c o db)
        as [[_ [_ E]] | [[_ [_ E]] | [_ E]]];
      rewrite E; cbn [snd]
  end.

Ltac after_read :=
  first
    [ rewrite query_page_after
    | rewrite query_first_or_404_after
    | reflexivity ].

Lemma serve_wf (r : Request) (db : DB) : wf db -> wf (serve r db).
Proof.
  intros H.
  destruct r; cbn [serve]; try (now apply create_user_wf);
    try (unfold read_roles, read_genres, read_departments, read_cities,
           read_users, read_user, read_customers, read_customer,
           read_specialties, read_barber_schedules, read_barbers,
           read_barber, read_staff, read_staff_by_id, read_staff_by_barber,
           read_barbershops, read_locations, read_appointments,
           read_appointment;
         after_read; exact H);
    try exact H;
    try (unfold create_role, create_genre, create_department, create_city,
           create_user, create_customer, create_specialty,
           create_barber_schedule, create_barber, create_staff,
           create_barbershop, create_location, create_appointment;
         after_add; [| | exact H];
         destruct H; constructor; cbn; try assumption;
         first [ apply keys_ok_insert; [assumption | reflexivity]
               | now apply keys_ok_bump ]).
  - (* DELETE /staff/{staff_id} *)
    unfold after.
    destruct (delete_staff_cases staff_id db)
      as [[_ E] | [[_ [_ E]] | [_ [_ E]]]]; rewrite E; cbn [snd];
      try exact H.
    destruct H; constructor; cbn; try assumption.
    now apply keys_ok_filter.
  - (* PATCH /appointments/{appointment_id}/status *)
    unfold after.
    destruct (update_appointment_status_cases appointment_id status db)
      as [[_ E] | [a [_ E]]]; rewrite E; cbn [snd]; try exact H.
    destruct H; constructor; cbn; try assumption.
    apply keys_ok_map; [| assumption].
    intros x. destruct (Appointment_id_appointment x =? appointment_id);
      reflexivity.
Qed.

Lemma reachable_wf (db : DB) : reachable db -> wf db.
Proof.
  induction 1 as [| r db _ IH]; [apply wf_empty | now apply serve_wf].
Qed.

(** ** Referential integrity *)

Lemma has_pk_incl {R : Type} (pk : R -> Z) (t t' : Table R) (k : Z) :
  incl (rows t) (rows t') -> has_pk pk t k = true -> has_pk pk t' k = true.
Proof.
  intros Hi H. apply has_pk_true in H. destruct H as [r [Hin Hk]].
  apply has_pk_true. exists r. split; [now apply Hi | assumption].
Qed.

Lemma has_pk_opt_incl {R : Type} (pk : R -> Z) (t t' : Table R)
    (k : option Z) :
  incl (rows t) (rows t') ->
  has_pk_opt pk t k = true -> has_pk_opt pk t' k = true.
Proof.
  destruct k as [k|]; [apply has_pk_incl | reflexivity].
Qed.

Ltac monotone :=
  let E := fresh "E" in
  intros E; destruct E;
  repeat rewrite andb_true_iff;
  intuition eauto using has_pk_incl, has_pk_opt_incl.

Lemma City_constraints_extends (db db' : DB) (c : City) :
  extends db db' ->
  City_constraints db c = true -> City_constraints db' c = true.
Proof. unfold City_constraints. monotone. Qed.

Lemma User_role_extends (db db' : DB) (u : User) :
  extends db db' ->
  has_pk_opt Role_id_role (roles db) (User_id_role u) = true ->
  has_pk_opt Role_id_role (roles db') (User_id_role u) = true.
Proof. monotone. Qed.

Lemma Customer_constraints_extends (db db' : DB) (c : Customer) :
  extends db db' ->
  Customer_constraints db c = true -> Customer_constraints db' c = true.
Proof. unfold Customer_constraints. monotone. Qed.

Lemma Staff_constraints_extends (db db' : DB) (s : Staff) :
  extends db db' ->
  Staff_constraints db s = true -> Staff_constraints db' s = true.
Proof. unfold Staff_constraints. monotone. Qed.

Lemma Barbershop_constraints_extends (db db' : DB) (b : Barbershop) :
  extends db db' ->
  Barbershop_constraints db b = true -> Barbershop_constraints db' b = true.
Proof. unfold Barbershop_constraints. monotone. Qed.

Lemma Barber_constraints_extends (db db' : DB) (b : Barber) :
  extends db db' ->
  Barber_constraints db b = true -> Barber_constraints db' b = true.
Proof. unfold Barber_constraints. monotone. Qed.

Lemma Location_constraints_extends (db db' : DB) (l : Location) :
  extends db db' ->
  Location_constraints db l = true -> Location_constraints db' l = true.
Proof. unfold Location_constraints. monotone. Qed.

Lemma Appointment_constraints_extends (db db' : DB) (a : Appointment) :
  extends db db' ->
  Appointment_constraints db a = true -> Appointment_constraints db' a = true.
Proof. unfold Appointment_constraints. monotone. Qed.

Create HintDb references.

#[local] Hint Resolve City_constraints_extends User_role_extends
  Customer_constraints_extends Staff_constraints_extends
  Barbershop_constraints_extends Barber_constraints_extends
  Location_constraints_extends Appointment_constraints_extends : references.

Lemma references_ok_empty : references_ok empty_db.
Proof.
  constructor; constructor.
Qed.

Lemma Forall_rows_snoc {R : Type} (Q : R -> Prop) (t : Table R) (l : list R)
    (x : R) :
  rows t = l ++ [x] -> Forall Q l -> Q x -> Forall Q (rows t).
Proof.
  intros -> Hl Hx. apply Forall_app. split; [assumption|].
  constructor; [assumption | constructor].
Qed.

Ltac old_rows :=
  match goal with
  | H : Forall _ _ |- Forall _ _ =>
      eapply Forall_impl; [| exact H]; cbv beta; intros;
      eauto with references
  end.

Ltac new_rows :=
  eapply Forall_rows_snoc;
  [ reflexivity | old_rows | cbv beta; eauto with references ].

Lemma serve_references_ok (r : Request) (db : DB) :
  references_ok db -> references_ok (serve r db).
Proof.
  intros H.
  destruct r; cbn [serve];
    try (unfold read_roles, read_genres, read_departments, read_cities,
           read_users, read_user, read_customers, read_customer,
           read_specialties, read_barber_schedules, read_barbers,
           read_barber, read_staff, read_staff_by_id, read_staff_by_barber,
           read_barbershops, read_locations, read_appointments,
           read_appointment;
         after_read; exact H);
    try exact H;
    try (unfold create_role, create_genre, create_department, create_city,
           create_user, create_customer, create_specialty,
           create_barber_schedule, create_barber, create_staff,
           create_barbershop, create_location, create_appointment;
         unfold after;
         match goal with
         | |- context [add_commit_refresh ?t ?s ?f ?c ?o ?d] =>
             destruct (add_commit_refresh_cases t s f c o d)
               as [[_ [C E]] | [[_ [C E]] | [_ E]]]
         end; rewrite E; cbn [snd]; [| | exact H];
         match goal with
         | |- references_ok ?db' =>
             assert (Hext : extends db db')
               by (constructor; cbn; auto using incl_refl, incl_appl)
         end;
         try match type of C with
             | User_constraints _ _ = true =>
                 apply andb_prop in C; destruct C as [_ C]
             end;
         destruct H; constructor; first [ old_rows | new_rows ]).
  - (* DELETE /staff/{staff_id} *)
    unfold after.
    destruct (delete_staff_cases staff_id db)
      as [[_ E] | [[_ [_ E]] | [_ [Hfree E]]]]; rewrite E; cbn [snd];
      try exact H.
    destruct H; constructor; try assumption.
    + cbn [rows staff set_staff]. apply Forall_forall. intros s Hs.
      apply filter_In in Hs. destruct Hs as [Hs _].
      rewrite Forall_forall in ref_staff0. exact (ref_staff0 s Hs).
    + rewrite Forall_forall in *. intros b Hb.
      specialize (ref_barbershops0 b Hb).
      unfold Barbershop_constraints in *.
      apply has_pk_true in ref_barbershops0.
      destruct ref_barbershops0 as [s [Hs Hk]].
      apply has_pk_true. exists s. split; [| assumption].
      cbn [rows staff set_staff]. apply filter_In. split; [assumption|].
      apply negb_true_iff, Z.eqb_neq. intros Heq.
      assert (T : existsb (fun b => Barbershop_id_staff b =? staff_id)
                    (rows (barbershops db)) = true).
      { apply existsb_exists. exists b. split; [assumption|].
        apply Z.eqb_eq. congruence. }
      congruence.
  - (* PATCH /appointments/{appointment_id}/status *)
    unfold after.
    destruct (update_appointment_status_cases appointment_id status db)
      as [[_ E] | [a [_ E]]]; rewrite E; cbn [snd]; try exact H.
    destruct H; constructor; try assumption.
    cbn [rows appointment set_appointment].
    rewrite Forall_forall in *. intros x Hx.
    apply in_map_iff in Hx. destruct Hx as [y [Hy Hin]]. subst x.
    specialize (ref_appointment0 y Hin).
    destruct (Appointment_id_appointment y =? appointment_id);
      exact ref_appointment0.
Qed.

Lemma reachable_references_ok (db : DB) : reachable db -> references_ok db.
Proof.
  induction 1 as [| r db _ IH];
    [apply references_ok_empty | now apply serve_references_ok].
Qed.

(** ** The sample store *)

Lemma fold_serve_reachable (rs : list Request) (db : DB) :
  reachable db -> reachable (fold_left (fun db r => serve r db) rs db).
Proof.
  revert db. induction rs as [|r rs IH]; simpl; intros db H; [exact H|].
  apply IH. now constructor.
Qed.

Lemma sample_db_reachable : reachable sample_db.
Proof.
  exact (fold_serve_reachable sample_requests empty_db reachable_empty).
Qed.

Example sample_db_tables :
  rows (staff sample_db) = [mk_Staff 1 1; mk_Staff 2 1] /\
  rows (barbershops sample_db) = [mk_Barbershop 1 1 None] /\
  rows (appointment sample_db) =
    [mk_Appointment 1 1 1 a_monday nine ten (Some pending);
     mk_Appointment 2 1 1 a_monday ten nine (Some done)] /\
  rows (users sample_db) =
    [mk_User 1 "Ana" "ana@example.com" (Some "secret"%string) (Some 1);
     mk_User 2 "Beto" "beto@example.com" (Some "hunter2"%string) None].
Proof.
  repeat split.
Qed.

(** ** Updating the status of an appointment *)

Lemma same_outside_status_refl (a : Appointment) : same_outside_status a a.
Proof.
  repeat split.
Qed.

Lemma find_pk_present {R : Type} (pk : R -> Z) (l : list R) (k : Z) :
  (exists r, In r l /\ pk r = k) ->
  exists r, find (fun x => pk x =? k) l = Some r.
Proof.
  intros [r [Hin Hk]].
  destruct (find (fun x => pk x =? k) l) as [x|] eqn:E; [now exists x|].
  exfalso. exact (proj1 (find_pk_none pk l k) E r Hin Hk).
Qed.

(** C1.  When an appointment with the given id exists, the store after
    [update_appointment_status] differs from the store before only in the
    table [appointment]; that table keeps its counter, its length and the
    position of every row; a row keeps every column but [status], the rows
    with the given id have the new status, whatever the old one was, and
    every row with another id is left as it was. *)
Theorem update_status_changes_only_status
    (db : DB) (appointment_id : Z) (status : AppointmentStatusEnum) :
  (exists a, In a (rows (appointment db)) /\
             Appointment_id_appointment a = appointment_id) ->
  same_outside_appointment db
    (after (update_appointment_status appointment_id status) db) /\
  next_id
    (appointment (after (update_appointment_status appointment_id status) db))
  = next_id (appointment db) /\
  List.length
    (rows
       (appointment
          (after (update_appointment_status appointment_id status) db)))
  = List.length (rows (appointment db)) /\
  forall (i : nat) (r : Appointment),
    nth_error (rows (appointment db)) i = Some r ->
    exists r',
      nth_error
        (rows
           (appointment
              (after (update_appointment_status appointment_id status) db)))
        i = Some r' /\
      same_outside_status r r' /\
      (Appointment_id_appointment r = appointment_id ->
       Appointment_status r' = Some status) /\
      (Appointment_id_appointment r <> appointment_id -> r' = r).
Proof.
  intros Hex. apply find_pk_present in Hex. destruct Hex as [a Ha].
  unfold after.
  destruct (update_appointment_status_cases appointment_id status db)
    as [[E _] | [a' [_ E]]]; [congruence|].
  rewrite E. cbn [snd set_appointment appointment next_id rows].
  split; [repeat split|]. split; [reflexivity|].
  split; [apply length_map|].
  intros i r Hi. rewrite nth_error_map, Hi. cbn [option_map].
  eexists. split; [reflexivity|].
  destruct (Appointment_id_appointment r =? appointment_id) eqn:Hk.
  - apply Z.eqb_eq in Hk. repeat split. intros Hne. contradiction.
  - apply Z.eqb_neq in Hk.
    split; [apply same_outside_status_refl|]. split; [contradiction|].
    reflexivity.
Qed.

Lemma update_status_changes_only_status_witness :
  (exists a, In a (rows (appointment sample_db)) /\
             Appointment_id_appointment a = 2) /\
  rows (appointment (after (update_appointment_status 2 pending) sample_db))
  = [mk_Appointment 1 1 1 a_monday nine ten (Some pending);
     mk_Appointment 2 1 1 a_monday ten nine (Some pending)] /\
  same_outside_appointment sample_db
    (after (update_appointment_status 2 pending) sample_db).
Proof.
  assert (H : exists a, In a (rows (appointment sample_db)) /\
                        Appointment_id_appointment a = 2).
  { exists (mk_Appointment 2 1 1 a_monday ten nine (Some done)).
    split; [right; left|]; reflexivity. }
  split; [exact H|]. split; [reflexivity|].
  exact (proj1 (update_status_changes_only_status sample_db 2 pending H)).
Defined.

(** C2.  [update_appointment_status] answers 404 exactly when no
    appointment has the given id; it raises nothing else, and a request
    that raises leaves the store as it was; when an appointment has the id,
    the request succeeds with the confirmation message for each of the four
    status values, whatever the status stored before, and the write takes
    place: the store it leaves still has a row with the id, and every row
    with the id has the new status. *)
Theorem update_status_not_found_iff
    (db : DB) (appointment_id : Z) (status : AppointmentStatusEnum) :
  ((forall a, In a (rows (appointment db)) ->
              Appointment_id_appointment a <> appointment_id)
   <-> fst (update_appointment_status appointment_id status db)
       = Err (HTTPException 404 "Appointment not found")) /\
  (forall e, fst (update_appointment_status appointment_id status db) = Err e ->
             e = HTTPException 404 "Appointment not found" /\
             snd (update_appointment_status appointment_id status db) = db) /\
  ((exists a, In a (rows (appointment db)) /\
              Appointment_id_appointment a = appointment_id) ->
   fst (update_appointment_status appointment_id status db)
   = Ok [("message"%string,
          "Appointment status updated successfully"%string)] /\
   (exists a',
      In a'
        (rows
           (appointment
              (snd (update_appointment_status appointment_id status db)))) /\
      Appointment_id_appointment a' = appointment_id) /\
   (forall a',
      In a'
        (rows
           (appointment
              (snd (update_appointment_status appointment_id status db)))) ->
      Appointment_id_appointment a' = appointment_id ->
      Appointment_status a' = Some status)).
Proof.
  destruct (update_appointment_status_cases appointment_id status db)
    as [[Hf E] | [a [Hf E]]]; rewrite E; cbn [fst snd].
  - pose proof (proj1 (find_pk_none _ _ _) Hf) as Hnone.
    split; [tauto|]. split.
    + intros e He. inversion He. auto.
    + intros [a [Hin Hk]]. exfalso. exact (Hnone a Hin Hk).
  - apply find_pk_some in Hf. destruct Hf as [Hin Hk].
    split; [split|split].
    + intros Hnone. exfalso. exact (Hnone a Hin Hk).
    + discriminate.
    + discriminate.
    + intros _. cbn [rows appointment set_appointment].
      split; [reflexivity|]. split.
      * exists (Appointment_set_status a status). split; [| exact Hk].
        apply in_map_iff. exists a. split; [| exact Hin].
        apply Z.eqb_eq in Hk. now rewrite Hk.
      * intros a' Hin' Hk'. apply in_map_iff in Hin'.
        destruct Hin' as [x [Hx _]].
        destruct (Appointment_id_appointment x =? appointment_id) eqn:Ex.
        -- subst a'. reflexivity.
        -- subst a'. apply Z.eqb_neq in Ex. contradiction.
Qed.

Lemma update_status_not_found_iff_witness :
  (exists a, In a (rows (appointment sample_db)) /\
             Appointment_id_appointment a = 1 /\
             Appointment_status a = Some pending) /\
  fst (update_appointment_status 1 done sample_db)
  = Ok [("message"%string,
         "Appointment status updated successfully"%string)] /\
  rows (appointment (snd (update_appointment_status 1 done sample_db)))
  = [mk_Appointment 1 1 1 a_monday nine ten (Some done);
     mk_Appointment 2 1 1 a_monday ten nine (Some done)] /\
  (forall a',
     In a'
       (rows (appointment (snd (update_appointment_status 1 done sample_db))))
     -> Appointment_id_appointment a' = 1 ->
     Appointment_status a' = Some done) /\
  update_appointment_status 7 done sample_db
  = (Err (HTTPException 404 "Appointment not found"), sample_db).
Proof.
  assert (H : exists a, In a (rows (appointment sample_db)) /\
                        Appointment_id_appointment a = 1).
  { exists (mk_Appointment 1 1 1 a_monday nine ten (Some pending)).
    split; [left|]; reflexivity. }
  split.
  { exists (mk_Appointment 1 1 1 a_monday nine ten (Some pending)).
    split; [left; reflexivity | split; reflexivity]. }
  split.
  { exact (proj1
             (proj2 (proj2 (update_status_not_found_iff sample_db 1 done))
                H)). }
  split; [reflexivity|]. split; [| reflexivity].
  exact (proj2
           (proj2
              (proj2 (proj2 (update_status_not_found_iff sample_db 1 done))
                 H))).
Defined.

(** ** The status of an appointment *)

(** C3.  An appointment created from a body without [status] is stored with
    status [pending], as the last row of the table; and a request that is
    not a status update leaves the rows of [appointment] in place, each with
    the status, and every other column, it had: all such a request can do
    to the table is append rows. *)
Theorem status_pending_by_default_and_set_only_by_update :
  (forall (db db' : DB) (id_customer id_barber : Z) (appointment_date : date)
          (start_time end_time : time) (a : Appointment),
     create_appointment
       (AppointmentCreate_parse id_customer id_barber appointment_date
          start_time end_time None) db = (Ok a, db') ->
     Appointment_status a = Some pending /\
     rows (appointment db') = rows (appointment db) ++ [a]) /\
  (forall (r : Request) (db : DB),
     is_status_update r = false ->
     exists new,
       rows (appointment (serve r db)) = rows (appointment db) ++ new).
Proof.
  split.
  - intros db db' id_customer id_barber appointment_date start_time end_time
      a H.
    unfold create_appointment in H.
    match type of H with
    | add_commit_refresh ?t ?s ?f ?c ?o ?d = _ =>
        destruct (add_commit_refresh_cases t s f c o d)
          as [[_ [_ E]] | [[_ [_ E]] | [_ E]]]
    end; rewrite E in H; try discriminate.
    inversion H; subst. split; reflexivity.
  - intros r db Hr.
    destruct r; try discriminate Hr; cbn [serve];
      try (unfold read_roles, read_genres, read_departments, read_cities,
             read_users, read_user, read_customers, read_customer,
             read_specialties, read_barber_schedules, read_barbers,
             read_barber, read_staff, read_staff_by_id,
             read_staff_by_barber, read_barbershops, read_locations,
             read_appointments, read_appointment;
           exists []; rewrite app_nil_r; after_read; reflexivity);
      try (exists []; rewrite app_nil_r; reflexivity);
      try (unfold create_role, create_genre, create_department, create_city,
             create_user, create_customer, create_specialty,
             create_barber_schedule, create_barber, create_staff,
             create_barbershop, create_location, create_appointment;
           after_add;
           first [ exists []; rewrite app_nil_r; reflexivity
                 | eexists; reflexivity ]).
    (* DELETE /staff/{staff_id} *)
    exists []. rewrite app_nil_r. unfold after.
    destruct (delete_staff_cases staff_id db)
      as [[_ E] | [[_ [_ E]] | [_ [_ E]]]]; rewrite E; reflexivity.
Qed.

Lemma status_pending_by_default_and_set_only_by_update_witness :
  create_appointment (AppointmentCreate_parse 1 1 a_monday nine ten None)
    sample_db
  = (Ok (mk_Appointment 3 1 1 a_monday nine ten (Some pending)),
     serve
       (POST_appointments (AppointmentCreate_parse 1 1 a_monday nine ten None))
       sample_db) /\
  Appointment_status (mk_Appointment 3 1 1 a_monday nine ten (Some pending))
  = Some pending /\
  is_status_update (DELETE_staff 2) = false /\
  exists new,
    rows (appointment (serve (DELETE_staff 2) sample_db))
    = rows (appointment sample_db) ++ new.
Proof.
  assert (H : create_appointment
                (AppointmentCreate_parse 1 1 a_monday nine ten None) sample_db
              = (Ok (mk_Appointment 3 1 1 a_monday nine ten (Some pending)),
                 serve
                   (POST_appointments
                      (AppointmentCreate_parse 1 1 a_monday nine ten None))
                   sample_db)) by (vm_compute; reflexivity).
  split; [exact H|].
  split.
  - exact (proj1 (proj1 status_pending_by_default_and_set_only_by_update
                    _ _ _ _ _ _ _ _ H)).
  - split; [reflexivity|].
    exact (proj2 status_pending_by_default_and_set_only_by_update
             (DELETE_staff 2) sample_db eq_refl).
Defined.

(** ** Creating a user *)

Lemma create_user_cases (user : UserCreate) (db : DB) :
  let u := mk_User (next_id (users db)) (UserCreate_full_name user)
             (UserCreate_email user) (Some (UserCreate_password user))
             (UserCreate_id_role user) in
  (UserCreate_fits user = true /\ User_constraints db u = true /\
   create_user user db =
     (Ok u,
      set_users (mk_Table (rows (users db) ++ [u]) (next_id (users db) + 1))
        db))
  \/
  (UserCreate_fits user = true /\ User_constraints db u = false /\
   create_user user db =
     (Err IntegrityError,
      set_users (mk_Table (rows (users db)) (next_id (users db) + 1)) db))
  \/
  (UserCreate_fits user = false /\
   create_user user db = (Err DataError, db)).
Proof.
  unfold create_user.
  match goal with
  | |- context [add_commit_refresh ?t ?s ?f ?c ?o ?d] =>
      exact (add_commit_refresh_cases t s f c o d)
  end.
Qed.

Lemma create_user_ok_fits (user : UserCreate) (db db' : DB) (u : User) :
  create_user user db = (Ok u, db') -> UserCreate_fits user = true.
Proof.
  unfold create_user. intros H. apply add_commit_refresh_ok in H.
  destruct H as [-> [H _]]. exact H.
Qed.



(** C5.  When some user row already has the email of the payload,
    [create_user] fails and every table, [users] included, holds the rows
    it held: no second row with that email appears.  The commit raises
    [IntegrityError] for the unique constraint when the payload fits its
    columns, and all that is left of the refused row is the value of the
    counter it took; when the payload does not fit, the commit raises
    [DataError] before any key is looked at, and the store is what it
    was. *)
Theorem create_user_duplicate_email_fails
    (db : DB) (user : UserCreate) (u0 : User) :
  In u0 (rows (users db)) ->
  User_email u0 = UserCreate_email user ->
  (UserCreate_fits user = true ->
   create_user user db
   = (Err IntegrityError,
      set_users (mk_Table (rows (users db)) (next_id (users db) + 1)) db)) /\
  (UserCreate_fits user = false ->
   create_user user db = (Err DataError, db)) /\
  same_rows db (snd (create_user user db)) /\
  (forall u, fst (create_user user db) <> Ok u).
Proof.
  intros Hin Hemail.
  destruct (create_user_cases user db)
    as [[_ [C _]] | [[F [_ E]] | [F E]]].
  - exfalso. unfold User_constraints in C. cbn in C.
    apply andb_prop in C. destruct C as [C _]. apply negb_true_iff in C.
    assert (T : existsb (fun v => String.eqb (User_email v)
                                    (UserCreate_email user))
                  (rows (users db)) = true).
    { apply existsb_exists. exists u0. split; [assumption|].
      now apply String.eqb_eq. }
    congruence.
  - rewrite E. cbn [fst snd].
    split; [reflexivity|]. split; [congruence|].
    split; [repeat split | discriminate].
  - rewrite E. cbn [fst snd].
    split; [congruence|]. split; [reflexivity|].
    split; [repeat split | discriminate].
Qed.

Lemma create_user_duplicate_email_fails_witness :
  In (mk_User 1 "Ana" "ana@example.com" (Some "secret"%string) (Some 1))
    (rows (users sample_db)) /\
  fst (create_user (mk_UserCreate "Ana Maria" "ana@example.com" None "other")
         sample_db)
  = Err IntegrityError /\
  rows
    (users
       (snd (create_user
               (mk_UserCreate "Ana Maria" "ana@example.com" None "other")
               sample_db)))
  = [mk_User 1 "Ana" "ana@example.com" (Some "secret"%string) (Some 1);
     mk_User 2 "Beto" "beto@example.com" (Some "hunter2"%string) None].
Proof.
  assert (Hin : In (mk_User 1 "Ana" "ana@example.com"
                      (Some "secret"%string) (Some 1))
                  (rows (users sample_db))) by (left; reflexivity).
  split; [exact Hin|].
  rewrite (proj1 (create_user_duplicate_email_fails sample_db
                    (mk_UserCreate "Ana Maria" "ana@example.com" None "other")
                    _ Hin eq_refl) eq_refl).
  split; reflexivity.
Defined.

(** ** Filtered lists *)

Lemma query_all_exactly_matching {R : Type} (tbl : DB -> Table R)
    (fk : R -> Z) (k : Z) (db : DB) :
  exists l,
    query_all tbl (fun x => fk x =? k) db = (Ok l, db) /\
    exactly_matching fk k (rows (tbl db)) l.
Proof.
  exists (filter (fun x => fk x =? k) (rows (tbl db))).
  split; [reflexivity|]. split.
  - intros x. rewrite filter_In, Z.eqb_eq. tauto.
  - intros Hnone. induction (rows (tbl db)) as [|x l IH]; [reflexivity|].
    simpl. destruct (fk x =? k) eqn:E.
    + apply Z.eqb_eq in E. exfalso. apply (Hnone x); simpl; auto.
    + apply IH. intros y Hy. apply Hnone. simpl; auto.
Qed.

(** C6.  Each of the four filter endpoints succeeds without touching the
    store, and returns exactly the rows of its table whose foreign key is
    the key of the request; the result is empty when no row has that key. *)
Theorem filter_endpoints_return_exactly_the_matches (db : DB) (k : Z) :
  (exists l, read_cities_by_department k db = (Ok l, db) /\
             exactly_matching City_id_department k (rows (citys db)) l) /\
  (exists l, read_barbers_by_city k db = (Ok l, db) /\
             exactly_matching Barber_id_city k (rows (barbers db)) l) /\
  (exists l, read_appointments_by_customer k db = (Ok l, db) /\
             exactly_matching Appointment_id_customer k
               (rows (appointment db)) l) /\
  (exists l, read_appointments_by_barber k db = (Ok l, db) /\
             exactly_matching Appointment_id_barber k
               (rows (appointment db)) l).
Proof.
  repeat split; apply query_all_exactly_matching.
Qed.

Example read_appointments_by_customer_sample :
  read_appointments_by_customer 1 sample_db
  = (Ok [mk_Appointment 1 1 1 a_monday nine ten (Some pending);
         mk_Appointment 2 1 1 a_monday ten nine (Some done)], sample_db) /\
  read_appointments_by_barber 2 sample_db = (Ok [], sample_db).
Proof.
  split; reflexivity.
Qed.

(** ** Staff *)

Lemma find_first_match {R : Type} (p : R -> bool) (before after_ : list R)
    (x : R) :
  p x = true -> (forall y, In y before -> p y = false) ->
  find p (before ++ x :: after_) = Some x.
Proof.
  intros Hx. induction before as [|y before IH]; simpl; intros Hb.
  - now rewrite Hx.
  - rewrite (Hb y) by auto. apply IH. intros z Hz. apply Hb. auto.
Qed.

Lemma first_match_or_none {R : Type} (p : R -> bool) (l : list R) :
  (exists before x after_,
     l = before ++ x :: after_ /\ p x = true /\
     forall y, In y before -> p y = false)
  \/ (forall y, In y l -> p y = false).
Proof.
  induction l as [|a l IH].
  - right. intros y [].
  - destruct (p a) eqn:E.
    + left. exists [], a, l. repeat split; auto. intros y [].
    + destruct IH as [[before [x [after_ [Hl [Hx Hb]]]]] | Hnone].
      * left. exists (a :: before), x, after_. subst l.
        repeat split; auto. intros y [Hy | Hy]; [now subst | auto].
      * right. intros y [Hy | Hy]; [now subst | auto].
Qed.

(** C7.  [read_staff_by_barber] returns the first row of [staff], in
    storage order, whose [id_barber] is the given one, whatever rows follow
    it, other rows of the same barber included; it answers 404 when no row
    has that barber; one of the two cases always applies, and the store is
    left as it was. *)
Theorem read_staff_by_barber_first_match (db : DB) (barber_id : Z) :
  (forall (before after_ : list Staff) (s : Staff),
     rows (staff db) = before ++ s :: after_ ->
     Staff_id_barber s = barber_id ->
     (forall x, In x before -> Staff_id_barber x <> barber_id) ->
     read_staff_by_barber barber_id db = (Ok s, db)) /\
  ((forall x, In x (rows (staff db)) -> Staff_id_barber x <> barber_id) ->
   read_staff_by_barber barber_id db
   = (Err (HTTPException 404 "Staff not found for this barber"), db)) /\
  ((exists before s after_,
      rows (staff db) = before ++ s :: after_ /\
      Staff_id_barber s = barber_id /\
      forall x, In x before -> Staff_id_barber x <> barber_id)
   \/ (forall x, In x (rows (staff db)) -> Staff_id_barber x <> barber_id)).
Proof.
  unfold read_staff_by_barber, bind, query_first, or_404.
  split; [| split].
  - intros before after_ s Hrows Hs Hbefore.
    rewrite Hrows, find_first_match; [reflexivity | now apply Z.eqb_eq |].
    intros y Hy. apply Z.eqb_neq. now apply Hbefore.
  - intros Hnone.
    rewrite (proj2 (find_pk_none Staff_id_barber _ _) Hnone). reflexivity.
  - destruct (first_match_or_none (fun s => Staff_id_barber s =? barber_id)
                (rows (staff db)))
      as [[before [s [after_ [Hl [Hs Hb]]]]] | Hnone].
    + left. exists before, s, after_. split; [assumption|].
      split; [now apply Z.eqb_eq|].
      intros x Hx. apply Z.eqb_neq. now apply Hb.
    + right. intros x Hx. apply Z.eqb_neq. now apply Hnone.
Qed.

Lemma read_staff_by_barber_first_match_witness :
  rows (staff sample_db) = [] ++ mk_Staff 1 1 :: [mk_Staff 2 1] /\
  read_staff_by_barber 1 sample_db = (Ok (mk_Staff 1 1), sample_db) /\
  read_staff_by_barber 5 sample_db
  = (Err (HTTPException 404 "Staff not found for this barber"), sample_db).
Proof.
  split; [reflexivity|]. split.
  - apply (proj1 (read_staff_by_barber_first_match sample_db 1)
             [] [mk_Staff 2 1] (mk_Staff 1 1)); try reflexivity.
    intros x [].
  - apply (proj1 (proj2 (read_staff_by_barber_first_match sample_db 5))).
    intros x [Hx | [Hx | []]]; subst x; discriminate.
Defined.

Lemma filter_out_unique_key {R : Type} (pk : R -> Z) (before after_ : list R)
    (x : R) :
  NoDup (map pk (before ++ x :: after_)) ->
  filter (fun r => negb (pk r =? pk x)) (before ++ x :: after_)
  = before ++ after_.
Proof.
  intros Hnd.
  assert (Hkeep : forall l, (forall y, In y l -> pk y <> pk x) ->
                            filter (fun r => negb (pk r =? pk x)) l = l).
  { induction l as [|y l IH]; simpl; intros Hl; [reflexivity|].
    rewrite (proj2 (Z.eqb_neq _ _) (Hl y (or_introl eq_refl))). simpl.
    f_equal. apply IH. intros z Hz. apply Hl. auto. }
  rewrite map_app in Hnd. simpl in Hnd.
  pose proof (NoDup_remove_2 _ _ _ Hnd) as Hnot.
  rewrite filter_app. simpl. rewrite Z.eqb_refl. simpl.
  rewrite !Hkeep; [reflexivity | |];
    intros y Hy Heq; apply Hnot; apply in_or_app; rewrite <- Heq;
    [right | left]; now apply in_map.
Qed.

(** The refusal that the amended C8 steps around: a staff row that a
    barbershop refers to is found, and then the DELETE violates the foreign
    key [barbershops.id_staff]. *)
Lemma delete_staff_refused_while_referenced (db : DB) (staff_id : Z)
    (s : Staff) (b : Barbershop) :
  In s (rows (staff db)) -> Staff_id_staff s = staff_id ->
  In b (rows (barbershops db)) -> Barbershop_id_staff b = staff_id ->
  delete_staff staff_id db = (Err IntegrityError, db).
Proof.
  intros Hs Hk Hb Hr.
  destruct (delete_staff_cases staff_id db)
    as [[Hf _] | [[_ [_ E]] | [_ [Hex _]]]]; [exfalso | exact E | exfalso].
  - exact (proj1 (find_pk_none _ _ _) Hf s Hs Hk).
  - assert (T : existsb (fun b => Barbershop_id_staff b =? staff_id)
                  (rows (barbershops db)) = true).
    { apply existsb_exists. exists b. split; [assumption|].
      now apply Z.eqb_eq. }
    congruence.
Qed.

(** C8, as stated, fails on a store that the API reaches: staff 1 is
    present in [sample_db], and [delete_staff 1] returns no confirmation and
    removes nothing, because barbershop 1 refers to the row; a get by that
    id still finds it. *)
Lemma delete_staff_present_row_kept :
  reachable sample_db /\
  In (mk_Staff 1 1) (rows (staff sample_db)) /\
  delete_staff 1 sample_db = (Err IntegrityError, sample_db) /\
  read_staff_by_id 1 (after (delete_staff 1) sample_db)
  = (Ok (mk_Staff 1 1), sample_db).
Proof.
  split; [exact sample_db_reachable|].
  split; [left; reflexivity|]. split; reflexivity.
Qed.

(** C8, amended.  In a well-formed store, when the staff row with the given
    id is referred to by no barbershop, [delete_staff] returns the
    confirmation, removes that row and nothing else (the rows before and
    after it stay, in order, and so does every other table), and a get by
    that id then answers 404; when no staff row has the id, [delete_staff]
    answers 404 and the store is what it was. *)
Theorem delete_staff_unreferenced_removes_row (db : DB) (staff_id : Z) :
  (forall (before after_ : list Staff) (s : Staff),
     wf db ->
     rows (staff db) = before ++ s :: after_ ->
     Staff_id_staff s = staff_id ->
     (forall b, In b (rows (barbershops db)) ->
                Barbershop_id_staff b <> staff_id) ->
     delete_staff staff_id db
     = (Ok [("message"%string, "Staff deleted successfully"%string)],
        set_staff (mk_Table (before ++ after_) (next_id (staff db))) db) /\
     read_staff_by_id staff_id
       (set_staff (mk_Table (before ++ after_) (next_id (staff db))) db)
     = (Err (HTTPException 404 "Staff not found"),
        set_staff (mk_Table (before ++ after_) (next_id (staff db))) db)) /\
  ((forall s, In s (rows (staff db)) -> Staff_id_staff s <> staff_id) ->
   delete_staff staff_id db
   = (Err (HTTPException 404 "Staff not found"), db)).
Proof.
  split.
  - intros before after_ s Hwf Hrows Hk Hfree.
    pose proof (proj1 (wf_staff db Hwf)) as Hnd. rewrite Hrows in Hnd.
    assert (Hgone : forall x, In x (before ++ after_) ->
                              Staff_id_staff x <> staff_id).
    { intros x Hx Heq. rewrite map_app in Hnd. simpl in Hnd.
      apply (NoDup_remove_2 _ _ _ Hnd). rewrite Hk, <- Heq, <- map_app.
      now apply in_map. }
    split.
    + destruct (delete_staff_cases staff_id db)
        as [[Hf _] | [[_ [Hex _]] | [_ [_ E]]]].
      * exfalso. apply (proj1 (find_pk_none _ _ _) Hf s); [| assumption].
        rewrite Hrows. apply in_or_app. right. left. reflexivity.
      * exfalso. apply existsb_exists in Hex.
        destruct Hex as [b [Hb Hr]]. apply Z.eqb_eq in Hr.
        exact (Hfree b Hb Hr).
      * rewrite E, Hrows, <- Hk, filter_out_unique_key by assumption.
        reflexivity.
    + unfold read_staff_by_id, bind, query_first, or_404.
      cbn [staff set_staff rows].
      rewrite (proj2 (find_pk_none Staff_id_staff _ _) Hgone). reflexivity.
  - intros Hnone.
    destruct (delete_staff_cases staff_id db)
      as [[_ E] | [[Hf _] | [Hf _]]]; [exact E | exfalso | exfalso];
      apply Hf; now apply find_pk_none.
Qed.

Lemma delete_staff_unreferenced_removes_row_witness :
  rows (staff sample_db) = [mk_Staff 1 1] ++ mk_Staff 2 1 :: [] /\
  (forall b, In b (rows (barbershops sample_db)) ->
             Barbershop_id_staff b <> 2) /\
  rows (staff (after (delete_staff 2) sample_db)) = [mk_Staff 1 1] /\
  delete_staff 2 sample_db
  = (Ok [("message"%string, "Staff deleted successfully"%string)],
     set_staff (mk_Table ([mk_Staff 1 1] ++ []) (next_id (staff sample_db)))
       sample_db) /\
  delete_staff 9 sample_db
  = (Err (HTTPException 404 "Staff not found"), sample_db).
Proof.
  assert (Hfree : forall b, In b (rows (barbershops sample_db)) ->
                            Barbershop_id_staff b <> 2).
  { intros b [Hb | []]; subst b; discriminate. }
  split; [reflexivity|]. split; [exact Hfree|]. split; [reflexivity|].
  split.
  - exact (proj1 (proj1 (delete_staff_unreferenced_removes_row sample_db 2)
                    [mk_Staff 1 1] [] (mk_Staff 2 1)
                    (reachable_wf sample_db sample_db_reachable)
                    eq_refl eq_refl Hfree)).
  - apply (proj2 (delete_staff_unreferenced_removes_row sample_db 9)).
    intros s [Hs | [Hs | []]]; subst s; discriminate.
Defined.

(** ** Statistics *)

(** C9.  [get_stats] returns nine counters, under the nine keys of the
    source, each the number of rows of its table in the store of the call,
    and leaves the store as it was. *)
Theorem get_stats_counts_every_table (db : DB) :
  get_stats db
  = (Ok [("users"%string, Z.of_nat (List.length (rows (users db))));
         ("customers"%string, Z.of_nat (List.length (rows (customers db))));
         ("barbers"%string, Z.of_nat (List.length (rows (barbers db))));
         ("staff"%string, Z.of_nat (List.length (rows (staff db))));
         ("appointments"%string,
          Z.of_nat (List.length (rows (appointment db))));
         ("barbershops"%string,
          Z.of_nat (List.length (rows (barbershops db))));
         ("specialties"%string,
          Z.of_nat (List.length (rows (specialties db))));
         ("departments"%string,
          Z.of_nat (List.length (rows (departments db))));
         ("cities"%string, Z.of_nat (List.length (rows (citys db))))],
     db).
Proof.
  reflexivity.
Qed.

Example get_stats_sample :
  get_stats sample_db
  = (Ok [("users"%string, 2); ("customers"%string, 1); ("barbers"%string, 1);
         ("staff"%string, 2); ("appointments"%string, 2);
         ("barbershops"%string, 1); ("specialties"%string, 0);
         ("departments"%string, 1); ("cities"%string, 1)], sample_db).
Proof.
  reflexivity.
Qed.

(** ** The credential and the responses *)











(** ** No request reads a credential

    Two stores that differ at most in credentials still do after the same
    request, whatever the request. *)












(** * Further properties of the handlers *)

(** ** Fetching one row by its id *)

Lemma has_pk_opt_true {R : Type} (pk : R -> Z) (t : Table R) (k : option Z) :
  has_pk_opt pk t k = true <-> refers_opt pk t k.
Proof.
  destruct k as [k|]; cbn; [apply has_pk_true | tauto].
Qed.

Lemma get_by_id_cases {R : Type} (tbl : DB -> Table R) (pk : R -> Z)
    (k : Z) (detail : string) (db : DB) :
  (~ refers pk (tbl db) k /\
   (found <- query_first tbl (fun x => pk x =? k) ;; or_404 found detail) db
   = (Err (HTTPException 404 detail), db))
  \/
  (exists before x after_,
     rows (tbl db) = before ++ x :: after_ /\ pk x = k /\
     (forall y, In y before -> pk y <> k) /\
     (found <- query_first tbl (fun x => pk x =? k) ;; or_404 found detail) db
     = (Ok x, db)).
Proof.
  unfold bind, query_first, or_404.
  destruct (first_match_or_none (fun x => pk x =? k) (rows (tbl db)))
    as [[before [x [after_ [Hl [Hx Hb]]]]] | Hnone].
  - right. exists before, x, after_. split; [assumption|].
    split; [now apply Z.eqb_eq|]. split.
    + intros y Hy. apply Z.eqb_neq. now apply Hb.
    + rewrite Hl, find_first_match by assumption. reflexivity.
  - left. split.
    + intros [r [Hin Hk]]. specialize (Hnone r Hin).
      apply Z.eqb_neq in Hnone. contradiction.
    + rewrite (proj2 (find_pk_none pk _ _)); [reflexivity|].
      intros r Hin. apply Z.eqb_neq. now apply Hnone.
Qed.

Lemma query_first_or_404_gets_by_id {R : Type} (tbl : DB -> Table R)
    (pk : R -> Z) (detail : string) :
  gets_by_id
    (fun k => found <- query_first tbl (fun x => pk x =? k) ;;
              or_404 found detail)
    tbl pk detail.
Proof.
  intros k db.
  assert (Hfirst : forall before x after_,
             rows (tbl db) = before ++ x :: after_ -> pk x = k ->
             (forall y, In y before -> pk y <> k) ->
             (found <- query_first tbl (fun x => pk x =? k) ;;
              or_404 found detail) db = (Ok x, db)).
  { intros before x after_ Hl Hx Hb. unfold bind, query_first, or_404.
    rewrite Hl, find_first_match; [reflexivity | now apply Z.eqb_eq |].
    intros y Hy. apply Z.eqb_neq. now apply Hb. }
  destruct (get_by_id_cases tbl pk k detail db)
    as [[Hno E] | [before [x [after_ [Hl [Hx [Hb E]]]]]]].
  - split; [tauto|]. split; [| now rewrite E].
    intros x. split.
    + rewrite E. discriminate.
    + intros [before [after_ [Hl [Hx _]]]]. exfalso. apply Hno.
      exists x. split; [| assumption].
      rewrite Hl. apply in_or_app. right. left. reflexivity.
  - split; [| split; [| now rewrite E]].
    + split.
      * intros Hno. exfalso. apply Hno. exists x. split; [| assumption].
        rewrite Hl. apply in_or_app. right. left. reflexivity.
      * rewrite E. discriminate.
    + intros x'. split.
      * rewrite E. intros H. injection H as <-. eauto.
      * intros [b' [a' [Hl' [Hx' Hb']]]]. now apply (Hfirst b' x' a').
Qed.

(** X1.  The five get-by-id handlers answer 404, each with its own
    message, exactly when no row of their table has the id; otherwise they
    return the first row with that id; they never change the store. *)
Theorem get_by_id_handlers_find_or_404 :
  gets_by_id read_user users User_id_user "User not found" /\
  gets_by_id read_customer customers Customer_id_customer
    "Customer not found" /\
  gets_by_id read_barber barbers Barber_id_barber "Barber not found" /\
  gets_by_id read_staff_by_id staff Staff_id_staff "Staff not found" /\
  gets_by_id read_appointment appointment Appointment_id_appointment
    "Appointment not found".
Proof.
  split; [| split; [| split; [| split]]];
    apply query_first_or_404_gets_by_id.
Qed.

(** ** A created row and its generated id *)

Lemma add_then_get_fetches_created {P R : Type} (tbl : DB -> Table R)
    (set : Table R -> DB -> DB) (columns : R -> bool)
    (check : DB -> R -> bool) (obj : P -> Z -> R) (pk : R -> Z)
    (detail : string) :
  (forall t db, tbl (set t db) = t) ->
  (forall p id, pk (obj p id) = id) ->
  fetches_created
    (fun p => add_commit_refresh tbl set columns check (obj p))
    (fun k => found <- query_first tbl (fun x => pk x =? k) ;;
              or_404 found detail)
    tbl pk.
Proof.
  intros Hset Hpk payload db db' row [_ Hlt] H.
  destruct (add_commit_refresh_cases tbl set columns check (obj payload) db)
    as [[_ [_ E]] | [[_ [_ E]] | [_ E]]]; rewrite E in H;
    try discriminate.
  injection H as <- <-. rewrite Hpk.
  split; [reflexivity|]. split.
  - intros [r [Hin Hk]]. rewrite Forall_forall in Hlt.
    specialize (Hlt r Hin). lia.
  - unfold bind, query_first, or_404. rewrite Hset. cbn [rows].
    rewrite find_first_match;
      [reflexivity | rewrite Hpk; apply Z.eqb_refl |].
    intros y Hy. rewrite Forall_forall in Hlt. specialize (Hlt y Hy).
    apply Z.eqb_neq. lia.
Qed.

(** X2.  In a table whose primary keys are below its counter, the row that
    [create_user], [create_customer], [create_barber], [create_staff] or
    [create_appointment] returns has the counter as its id, an id that no
    row had before, and the get-by-id handler of the table returns that
    very row afterwards. *)
Theorem created_row_is_fetched_by_its_id :
  fetches_created create_user read_user users User_id_user /\
  fetches_created create_customer read_customer customers
    Customer_id_customer /\
  fetches_created create_barber read_barber barbers Barber_id_barber /\
  fetches_created create_staff read_staff_by_id staff Staff_id_staff /\
  fetches_created create_appointment read_appointment appointment
    Appointment_id_appointment.
Proof.
  split; [| split; [| split; [| split]]].
  - exact (add_then_get_fetches_created users set_users User_columns
             User_constraints
             (fun user id =>
                mk_User id (UserCreate_full_name user)
                  (UserCreate_email user) (Some (UserCreate_password user))
                  (UserCreate_id_role user))
             User_id_user "User not found"
             (fun _ _ => eq_refl) (fun _ _ => eq_refl)).
  - exact (add_then_get_fetches_created customers set_customers
             Customer_columns Customer_constraints
             (fun customer id =>
                mk_Customer id (CustomerCreate_id_user customer)
                  (CustomerCreate_id_genre customer)
                  (CustomerCreate_phone customer)
                  (CustomerCreate_direction customer)
                  (CustomerCreate_id_department customer)
                  (CustomerCreate_id_city customer))
             Customer_id_customer "Customer not found"
             (fun _ _ => eq_refl) (fun _ _ => eq_refl)).
  - exact (add_then_get_fetches_created barbers set_barbers
             Barber_columns Barber_constraints
             (fun barber id =>
                mk_Barber id (BarberCreate_id_user barber)
                  (BarberCreate_id_genre barber)
                  (BarberCreate_id_barbershop barber)
                  (BarberCreate_id_specialty barber)
                  (BarberCreate_id_department barber)
                  (BarberCreate_id_city barber)
                  (BarberCreate_id_barber_schedule barber)
                  (BarberCreate_phone barber) (BarberCreate_direction barber)
                  (BarberCreate_points barber))
             Barber_id_barber "Barber not found"
             (fun _ _ => eq_refl) (fun _ _ => eq_refl)).
  - exact (add_then_get_fetches_created staff set_staff Staff_columns
             Staff_constraints
             (fun staff_in id => mk_Staff id (StaffCreate_id_barber staff_in))
             Staff_id_staff "Staff not found"
             (fun _ _ => eq_refl) (fun _ _ => eq_refl)).
  - exact (add_then_get_fetches_created appointment set_appointment
             Appointment_columns Appointment_constraints
             (fun appointment_in id =>
                mk_Appointment id
                  (AppointmentCreate_id_customer appointment_in)
                  (AppointmentCreate_id_barber appointment_in)
                  (AppointmentCreate_appointment_date appointment_in)
                  (AppointmentCreate_start_time appointment_in)
                  (AppointmentCreate_end_time appointment_in)
                  (Some (AppointmentCreate_status appointment_in)))
             Appointment_id_appointment "Appointment not found"
             (fun _ _ => eq_refl) (fun _ _ => eq_refl)).
Qed.

Lemma created_row_is_fetched_by_its_id_witness :
  keys_ok Staff_id_staff (staff sample_db) /\
  create_staff (mk_StaffCreate 1) sample_db
  = (Ok (mk_Staff 3 1), serve (POST_staff (mk_StaffCreate 1)) sample_db) /\
  read_staff_by_id 3 (serve (POST_staff (mk_StaffCreate 1)) sample_db)
  = (Ok (mk_Staff 3 1), serve (POST_staff (mk_StaffCreate 1)) sample_db).
Proof.
  assert (K : keys_ok Staff_id_staff (staff sample_db))
    by exact (wf_staff _ (reachable_wf sample_db sample_db_reachable)).
  assert (H : create_staff (mk_StaffCreate 1) sample_db
              = (Ok (mk_Staff 3 1),
                 serve (POST_staff (mk_StaffCreate 1)) sample_db))
    by (vm_compute; reflexivity).
  split; [exact K|]. split; [exact H|].
  exact (proj2 (proj2
           (proj1 (proj2 (proj2 (proj2 created_row_is_fetched_by_its_id)))
              _ _ _ _ K H))).
Defined.

(** ** What a create handler accepts *)

Lemma add_commit_refresh_references {R : Type} (tbl : DB -> Table R)
    (set : Table R -> DB -> DB) (columns : R -> bool)
    (check : DB -> R -> bool) (obj : Z -> R) (pk : R -> Z) (db : DB)
    (found : Prop) :
  (forall t db, tbl (set t db) = t) ->
  (forall n, same_rows db (set (mk_Table (rows (tbl db)) n) db)) ->
  pk (obj (next_id (tbl db))) = next_id (tbl db) ->
  (check db (obj (next_id (tbl db))) = true <-> found) ->
  (forall row db',
     add_commit_refresh tbl set columns check obj db = (Ok row, db') ->
     found /\ pk row = next_id (tbl db) /\
     rows (tbl db') = rows (tbl db) ++ [row]) /\
  (~ found ->
   (fst (add_commit_refresh tbl set columns check obj db)
    = Err IntegrityError \/
    fst (add_commit_refresh tbl set columns check obj db) = Err DataError) /\
   same_rows db (snd (add_commit_refresh tbl set columns check obj db))).
Proof.
  intros Hset Hsame Hpk Hiff.
  destruct (add_commit_refresh_cases tbl set columns check obj db)
    as [[_ [C E]] | [[_ [C E]] | [_ E]]]; rewrite E; cbn [fst snd]; split.
  - intros row db' H. injection H as <- <-. rewrite Hset.
    split; [now apply Hiff | split; [exact Hpk | reflexivity]].
  - intros Hno. exfalso. now apply Hno, Hiff.
  - discriminate.
  - intros _. split; [now left | apply Hsame].
  - discriminate.
  - intros _. split; [now right | repeat split].
Qed.

Ltac decide_constraints :=
  cbn;
  repeat rewrite andb_true_iff;
  repeat rewrite has_pk_true;
  repeat rewrite has_pk_opt_true;
  unfold refers; tauto.

Ltac by_references handler :=
  intros payload db; unfold handler;
  match goal with
  | |- context [add_commit_refresh ?t ?s ?f ?c ?o ?d] =>
      apply (add_commit_refresh_references t s f c o _ d)
  end;
  [ reflexivity | intros n; repeat split | reflexivity | ].

(** X3.  The seven create handlers of the models that declare foreign keys
    and nothing else, [create_city], [create_customer], [create_barber],
    [create_staff], [create_barbershop], [create_location] and
    [create_appointment]: a create that succeeds found a row for each
    reference of its payload (a reference that may be absent counts as
    found), gave the new row the counter of its table as id and put it last
    in the table; a create whose payload refers to no row fails with
    [IntegrityError], or with [DataError] when a value does not fit its
    column, and no table gains or loses a row. *)
Theorem create_handlers_check_references :
  checks_references create_city citys City_id_city
    (fun city db =>
       refers Department_id_department (departments db)
         (CityCreate_id_department city)) /\
  checks_references create_customer customers Customer_id_customer
    (fun customer db =>
       refers User_id_user (users db) (CustomerCreate_id_user customer) /\
       refers Genre_id_genre (genres db) (CustomerCreate_id_genre customer) /\
       refers Department_id_department (departments db)
         (CustomerCreate_id_department customer) /\
       refers City_id_city (citys db) (CustomerCreate_id_city customer)) /\
  checks_references create_barber barbers Barber_id_barber
    (fun barber db =>
       refers User_id_user (users db) (BarberCreate_id_user barber) /\
       refers Genre_id_genre (genres db) (BarberCreate_id_genre barber) /\
       refers_opt Barbershop_id_barbershop (barbershops db)
         (BarberCreate_id_barbershop barber) /\
       refers_opt Specialty_id_specialty (specialties db)
         (BarberCreate_id_specialty barber) /\
       refers Department_id_department (departments db)
         (BarberCreate_id_department barber) /\
       refers City_id_city (citys db) (BarberCreate_id_city barber) /\
       refers_opt BarberSchedule_id_schedule (barber_schedule db)
         (BarberCreate_id_barber_schedule barber)) /\
  checks_references create_staff staff Staff_id_staff
    (fun staff_in db =>
       refers Barber_id_barber (barbers db)
         (StaffCreate_id_barber staff_in)) /\
  checks_references create_barbershop barbershops Barbershop_id_barbershop
    (fun barbershop db =>
       refers Staff_id_staff (staff db)
         (BarbershopCreate_id_staff barbershop)) /\
  checks_references create_location locations Location_id_location
    (fun location db =>
       refers Barbershop_id_barbershop (barbershops db)
         (LocationCreate_id_barbershop location) /\
       refers Department_id_department (departments db)
         (LocationCreate_id_department location) /\
       refers City_id_city (citys db) (LocationCreate_id_city location)) /\
  checks_references create_appointment appointment
    Appointment_id_appointment
    (fun appointment_in db =>
       refers Customer_id_customer (customers db)
         (AppointmentCreate_id_customer appointment_in) /\
       refers Barber_id_barber (barbers db)
         (AppointmentCreate_id_barber appointment_in)).
Proof.
  split; [| split; [| split; [| split; [| split; [| split]]]]].
  - by_references create_city. unfold City_constraints.
    decide_constraints.
  - by_references create_customer. unfold Customer_constraints.
    decide_constraints.
  - by_references create_barber. unfold Barber_constraints.
    decide_constraints.
  - by_references create_staff. unfold Staff_constraints.
    decide_constraints.
  - by_references create_barbershop. unfold Barbershop_constraints.
    decide_constraints.
  - by_references create_location. unfold Location_constraints.
    decide_constraints.
  - by_references create_appointment. unfold Appointment_constraints.
    decide_constraints.
Qed.

Lemma create_handlers_check_references_witness :
  ~ refers Department_id_department (departments sample_db) 9 /\
  fst (create_city (mk_CityCreate "Bello" 9) sample_db)
  = Err IntegrityError /\
  same_rows sample_db (snd (create_city (mk_CityCreate "Bello" 9) sample_db))
  /\
  create_staff (mk_StaffCreate 1) sample_db
  = (Ok (mk_Staff 3 1), serve (POST_staff (mk_StaffCreate 1)) sample_db) /\
  refers Barber_id_barber (barbers sample_db) 1.
Proof.
  assert (H : ~ refers Department_id_department (departments sample_db) 9).
  { intros [d [[<- | []] Hd]]. discriminate Hd. }
  assert (K : create_staff (mk_StaffCreate 1) sample_db
              = (Ok (mk_Staff 3 1),
                 serve (POST_staff (mk_StaffCreate 1)) sample_db))
    by (vm_compute; reflexivity).
  split; [exact H|]. split; [reflexivity|]. split.
  - exact (proj2
             (proj2 (proj1 create_handlers_check_references
                       (mk_CityCreate "Bello" 9) sample_db) H)).
  - split; [exact K|].
    exact (proj1
             (proj1
                (proj1
                   (proj2 (proj2 (proj2 create_handlers_check_references)))
                   (mk_StaffCreate 1) sample_db) _ _ K)).
Defined.





(** X9.  [create_location] does not compare the two hours: when it has
    stored a location, the payload with [opening_hour] and [closing_hour]
    exchanged is accepted on the same store, under the same id. *)
Theorem create_location_accepts_exchanged_hours
    (location : LocationCreate) (db db' : DB) (l : Location) :
  create_location location db = (Ok l, db') ->
  exists l' db'',
    create_location
      (mk_LocationCreate (LocationCreate_id_barbershop location)
         (LocationCreate_id_department location)
         (LocationCreate_id_city location) (LocationCreate_address location)
         (LocationCreate_closing_hour location)
         (LocationCreate_opening_hour location)) db
    = (Ok l', db'') /\
    Location_id_location l' = Location_id_location l /\
    Location_opening_hour l' = Location_closing_hour l /\
    Location_closing_hour l' = Location_opening_hour l.
Proof.
  intros H. unfold create_location in *.
  apply add_commit_refresh_ok in H. destruct H as [-> [F [C _]]].
  match goal with
  | |- context [add_commit_refresh ?t ?s ?f ?c ?o ?d1] =>
      destruct (add_commit_refresh_cases t s f c o d1)
        as [[_ [_ E1]] | [[_ [C1 _]] | [F1 _]]]
  end.
  - rewrite E1. eexists. eexists. split; [reflexivity|]. repeat split.
  - exfalso. unfold Location_constraints in *. cbn in C, C1. congruence.
  - exfalso. unfold Location_columns in *. cbn in F, F1. congruence.
Qed.

Lemma create_location_accepts_exchanged_hours_witness :
  create_location (mk_LocationCreate 1 1 1 "Calle 10" nine ten) sample_db
  = (Ok (mk_Location 1 1 1 1 "Calle 10" nine ten),
     serve (POST_locations (mk_LocationCreate 1 1 1 "Calle 10" nine ten))
       sample_db) /\
  exists l' db'',
    create_location (mk_LocationCreate 1 1 1 "Calle 10" ten nine) sample_db
    = (Ok l', db'') /\
    Location_opening_hour l' = ten /\
    Location_closing_hour l' = nine.
Proof.
  assert (H : create_location (mk_LocationCreate 1 1 1 "Calle 10" nine ten)
                sample_db
              = (Ok (mk_Location 1 1 1 1 "Calle 10" nine ten),
                 serve
                   (POST_locations
                      (mk_LocationCreate 1 1 1 "Calle 10" nine ten))
                   sample_db)) by (vm_compute; reflexivity).
  split; [exact H|].
  destruct (create_location_accepts_exchanged_hours _ _ _ _ H)
    as [l' [db'' [H1 [_ [H2 H3]]]]].
  exists l', db''. split; [exact H1|]. split; [exact H2 | exact H3].
Defined.



(** ** Listing a table *)

Lemma row_count_true (n : Z) : row_count n = true <-> 0 <= n < 2 ^ 64.
Proof.
  unfold row_count. rewrite andb_true_iff, Z.leb_le, Z.ltb_lt. tauto.
Qed.

Lemma query_page_lists_pages {R : Type} (tbl : DB -> Table R) :
  lists_pages (query_page tbl) tbl.
Proof.
  intros skip limit db. unfold query_page.
  split; [destruct (row_count skip && row_count limit); reflexivity|].
  split; [| split].
  - intros H.
    assert (E : row_count skip && row_count limit = false).
    { apply not_true_is_false. rewrite andb_true_iff, !row_count_true.
      lia. }
    now rewrite E.
  - intros Hs Hl.
    assert (E : row_count skip && row_count limit = true).
    { rewrite andb_true_iff, !row_count_true. lia. }
    rewrite E. eexists. split; [reflexivity|]. split.
    + exists (skipn (Z.to_nat limit) (skipn (Z.to_nat skip) (rows (tbl db)))
                ++ firstn (Z.to_nat skip) (rows (tbl db))).
      rewrite app_assoc, firstn_skipn.
      rewrite Permutation_app_comm. now rewrite firstn_skipn.
    + rewrite length_firstn, length_skipn. lia.
  - intros Hlen.
    assert (E : row_count 0 && row_count limit = true).
    { rewrite andb_true_iff, !row_count_true. lia. }
    rewrite E. cbn [Z.to_nat skipn fst].
    rewrite firstn_all2 by lia. eexists. split; reflexivity.
Qed.

(** X12.  Each of the thirteen list handlers leaves the store as it was.
    It raises [ProgrammingError] when [skip] or [limit] is negative or
    does not fit 64 bits.  Otherwise it returns rows of its table, none of
    them more often than the table has it: [limit] of them, or as many as
    are left of the table after [skip] rows when these are fewer.  With
    [skip = 0] and a [limit] that is at least the size of the table it
    returns every row of the table.  Nothing is stated of the order of the
    rows: the queries have no [ORDER BY]. *)
Theorem list_handlers_return_pages :
  lists_pages read_roles roles /\
  lists_pages read_genres genres /\
  lists_pages read_departments departments /\
  lists_pages read_cities citys /\
  lists_pages read_users users /\
  lists_pages read_customers customers /\
  lists_pages read_specialties specialties /\
  lists_pages read_barber_schedules barber_schedule /\
  lists_pages read_barbers barbers /\
  lists_pages read_staff staff /\
  lists_pages read_barbershops barbershops /\
  lists_pages read_locations locations /\
  lists_pages read_appointments appointment.
Proof.
  do 12 (split; [exact (query_page_lists_pages _)|]).
  exact (query_page_lists_pages _).
Qed.

Lemma list_handlers_return_pages_witness :
  fst (read_staff 0 (-1) sample_db) = Err ProgrammingError /\
  fst (read_staff (2 ^ 64) 10 sample_db) = Err ProgrammingError /\
  (exists l,
     fst (read_staff 1 100 sample_db) = Ok l /\
     Z.of_nat (List.length l) = 1) /\
  (exists l,
     fst (read_staff 0 2 sample_db) = Ok l /\
     Permutation l [mk_Staff 1 1; mk_Staff 2 1]).
Proof.
  pose proof (proj1 (proj2 (proj2 (proj2 (proj2 (proj2 (proj2 (proj2
                (proj2 (proj2 list_handlers_return_pages))))))))))
    as H.
  split; [| split; [| split]].
  - apply (proj1 (proj2 (H 0 (-1) sample_db))). lia.
  - apply (proj1 (proj2 (H (2 ^ 64) 10 sample_db))). lia.
  - destruct (proj1 (proj2 (proj2 (H 1 100 sample_db)))) as [l [Hl [_ Hn]]];
      [lia | lia |].
    exists l. split; [exact Hl | exact Hn].
  - apply (proj2 (proj2 (proj2 (H 0 2 sample_db)))).
    cbn. lia.
Defined.

(** ** Requests that fail, requests that read *)

Ltac unfold_reads :=
  unfold read_roles, read_genres, read_departments, read_cities,
    read_cities_by_department, read_users, read_user, read_customers,
    read_customer, read_specialties, read_barber_schedules, read_barbers,
    read_barber, read_barbers_by_city, read_staff, read_staff_by_id,
    read_staff_by_barber, read_barbershops, read_locations,
    read_appointments, read_appointment, read_appointments_by_customer,
    read_appointments_by_barber, read_root, health_check, get_stats.

Ltac unfold_creates :=
  unfold create_role, create_genre, create_department, create_city,
    create_user, create_customer, create_specialty, create_barber_schedule,
    create_barber, create_staff, create_barbershop, create_location,
    create_appointment.

(** X13.  No route registered with [@app.get] writes: whatever it returns
    or raises, the store after the request is the store before it. *)
Theorem get_requests_never_write (r : Request) (db : DB) :
  is_get r = true -> serve r db = db.
Proof.
  intros H. destruct r; try discriminate H; cbn [serve]; unfold_reads;
    first [ apply query_page_after
          | apply query_first_or_404_after
          | reflexivity ].
Qed.

Lemma get_requests_never_write_witness :
  is_get (GET_users (-3) 100) = true /\
  serve (GET_users (-3) 100) sample_db = sample_db /\
  serve (GET_staff_by_barber 1) sample_db = sample_db.
Proof.
  split; [reflexivity|]. split.
  - exact (get_requests_never_write (GET_users (-3) 100) sample_db eq_refl).
  - exact (get_requests_never_write (GET_staff_by_barber 1) sample_db
             eq_refl).
Defined.

Lemma same_rows_refl (db : DB) : same_rows db db.
Proof.
  repeat split.
Qed.

Lemma raised_add_commit_refresh {R : Type} (tbl : DB -> Table R)
    (set : Table R -> DB -> DB) (columns : R -> bool)
    (check : DB -> R -> bool) (obj : Z -> R) (db : DB) (e : Error) :
  (forall n, same_rows db (set (mk_Table (rows (tbl db)) n) db)) ->
  raised (add_commit_refresh tbl set columns check obj) db = Some e ->
  (e = IntegrityError \/ e = DataError) /\
  same_rows db (after (add_commit_refresh tbl set columns check obj) db).
Proof.
  intros Hsame. unfold raised, after.
  destruct (add_commit_refresh_cases tbl set columns check obj db)
    as [[_ [_ E]] | [[_ [_ E]] | [_ E]]]; rewrite E; cbn; intros H;
    [discriminate | |]; injection H as <-.
  - split; [now left | apply Hsame].
  - split; [now right | apply same_rows_refl].
Qed.

Lemma raised_query_page {R : Type} (tbl : DB -> Table R) (skip limit : Z)
    (db : DB) (e : Error) :
  raised (query_page tbl skip limit) db = Some e -> e = ProgrammingError.
Proof.
  unfold raised, query_page.
  destruct (row_count skip && row_count limit); cbn; intros H;
    [discriminate | now injection H].
Qed.

Lemma raised_query_first_or_404 {R : Type} (tbl : DB -> Table R)
    (p : R -> bool) (detail : string) (db : DB) (e : Error) :
  raised (found <- query_first tbl p ;; or_404 found detail) db = Some e ->
  e = HTTPException 404 detail.
Proof.
  unfold raised, bind, query_first, or_404.
  destruct (find p (rows (tbl db))); cbn; intros H;
    [discriminate | now injection H].
Qed.

(** X14.  A request that raises leaves every table with the rows it had.
    What it raises follows the kind of the route: a POST raises
    [IntegrityError] or [DataError] and nothing else, and all it may leave
    behind is a counter that has moved; a GET raises [ProgrammingError]
    (the list routes) or 404 (the get-by-id routes); the DELETE raises 404
    or [IntegrityError]; the PATCH raises nothing but 404; and after a
    request other than a POST that raises, the store is what it was. *)
Theorem failed_request_writes_nothing (r : Request) (db : DB) (e : Error) :
  error_of r db = Some e ->
  same_rows db (serve r db) /\
  (is_post r = true -> e = IntegrityError \/ e = DataError) /\
  (is_get r = true ->
   e = ProgrammingError \/ exists detail, e = HTTPException 404 detail) /\
  (is_delete r = true ->
   e = IntegrityError \/ e = HTTPException 404 "Staff not found") /\
  (is_status_update r = true ->
   e = HTTPException 404 "Appointment not found") /\
  (is_post r = false -> serve r db = db).
Proof.
  intros H.
  destruct r;
    cbn [error_of serve is_get is_post is_delete is_status_update] in *;
    try (revert H; unfold_creates; intros H;
         apply raised_add_commit_refresh in H; [| intros n; repeat split];
         destruct H as [He Hs];
         split; [exact Hs|]; repeat split; auto; discriminate);
    try (revert H; unfold_reads; intros H;
         pose proof H as H';
         apply raised_query_page in H';
         subst e; rewrite query_page_after;
         split; [apply same_rows_refl|]; repeat split; auto; discriminate);
    try (revert H; unfold_reads; intros H;
         pose proof H as H';
         apply raised_query_first_or_404 in H';
         subst e; rewrite query_first_or_404_after;
         split; [apply same_rows_refl|]; repeat split; eauto; discriminate);
    try (revert H; unfold_reads; intros H; discriminate H).
  - (* DELETE /staff/{staff_id} *)
    revert H. unfold raised, after.
    destruct (delete_staff_cases staff_id db)
      as [[_ E] | [[_ [_ E]] | [_ [_ E]]]]; rewrite E; cbn; intros H;
      try discriminate; injection H as <-;
      (split; [apply same_rows_refl|]); repeat split; eauto; discriminate.
  - (* PATCH /appointments/{appointment_id}/status *)
    revert H. unfold raised, after.
    destruct (update_appointment_status_cases appointment_id status db)
      as [[_ E] | [a [_ E]]]; rewrite E; cbn; intros H;
      try discriminate; injection H as <-;
      (split; [apply same_rows_refl|]); repeat split; eauto; discriminate.
Qed.

Lemma failed_request_writes_nothing_witness :
  error_of (POST_barbershops (mk_BarbershopCreate 7 None)) sample_db
  = Some IntegrityError /\
  same_rows sample_db
    (serve (POST_barbershops (mk_BarbershopCreate 7 None)) sample_db) /\
  error_of (POST_roles (mk_RoleCreate (times "r" 101))) sample_db
  = Some DataError /\
  error_of (DELETE_staff 1) sample_db = Some IntegrityError /\
  serve (DELETE_staff 1) sample_db = sample_db.
Proof.
  assert (H : error_of (POST_barbershops (mk_BarbershopCreate 7 None))
                sample_db = Some IntegrityError) by reflexivity.
  assert (K : error_of (DELETE_staff 1) sample_db = Some IntegrityError)
    by reflexivity.
  split; [exact H|]. split.
  { exact (proj1 (failed_request_writes_nothing _ _ _ H)). }
  split; [vm_compute; reflexivity|]. split; [exact K|].
  exact (proj2 (proj2 (proj2 (proj2 (proj2
           (failed_request_writes_nothing _ _ _ K))))) eq_refl).
Defined.

(** ** The status after an update *)

Lemma find_map_same_key {R : Type} (pk : R -> Z) (f : R -> R) (k : Z)
    (l : list R) :
  (forall r, pk (f r) = pk r) ->
  find (fun x => pk x =? k) (map f l)
  = option_map f (find (fun x => pk x =? k) l).
Proof.
  intros Hf. induction l as [|x l IH]; [reflexivity|].
  cbn. rewrite Hf. destruct (pk x =? k); [reflexivity | exact IH].
Qed.

(** X15.  After [update_appointment_status], [read_appointment] with the
    same id returns the row it returned before, now with the new status:
    every other column is what it was. *)
Theorem read_appointment_after_update
    (db : DB) (appointment_id : Z) (status : AppointmentStatusEnum)
    (a : Appointment) :
  read_appointment appointment_id db = (Ok a, db) ->
  exists a',
    read_appointment appointment_id
      (after (update_appointment_status appointment_id status) db)
    = (Ok a', after (update_appointment_status appointment_id status) db) /\
    Appointment_status a' = Some status /\
    same_outside_status a a'.
Proof.
  intros H. exists (Appointment_set_status a status).
  split; [| split; [reflexivity | repeat split]].
  revert H. unfold read_appointment, bind, query_first, or_404, after.
  destruct (update_appointment_status_cases appointment_id status db)
    as [[F E] | [a0 [F E]]]; rewrite E, F; cbn [snd]; [discriminate|].
  intros H. injection H as ->.
  cbn [appointment set_appointment rows].
  rewrite find_map_same_key, F.
  - cbn [option_map].
    rewrite (proj2 (Z.eqb_eq _ _) (proj2 (find_pk_some _ _ _ _ F))).
    reflexivity.
  - intros r. destruct (Appointment_id_appointment r =? appointment_id);
      reflexivity.
Qed.

Lemma read_appointment_after_update_witness :
  read_appointment 2 sample_db
  = (Ok (mk_Appointment 2 1 1 a_monday ten nine (Some done)), sample_db) /\
  exists a',
    fst (read_appointment 2
           (after (update_appointment_status 2 cancelled) sample_db))
    = Ok a' /\
    Appointment_status a' = Some cancelled.
Proof.
  assert (H : read_appointment 2 sample_db
              = (Ok (mk_Appointment 2 1 1 a_monday ten nine (Some done)),
                 sample_db)) by reflexivity.
  split; [exact H|].
  destruct (read_appointment_after_update sample_db 2 cancelled _ H)
    as [a' [H1 [H2 _]]].
  exists a'. split; [now rewrite H1 | exact H2].
Defined.

(** X16.  Only the last status update counts: updating the status of an
    appointment twice leaves the store that the second update alone would
    leave, whatever the two values; with twice the same value, the second
    update changes nothing. *)
Theorem update_status_last_write_wins
    (db : DB) (appointment_id : Z) (s1 s2 : AppointmentStatusEnum) :
  after (update_appointment_status appointment_id s2)
    (after (update_appointment_status appointment_id s1) db)
  = after (update_appointment_status appointment_id s2) db.
Proof.
  unfold after at 2 3.
  destruct (update_appointment_status_cases appointment_id s1 db)
    as [[F1 E1] | [a1 [F1 E1]]]; rewrite E1; cbn [snd]; [reflexivity|].
  destruct (update_appointment_status_cases appointment_id s2 db)
    as [[F2 E2] | [a2 [F2 E2]]]; rewrite E2; cbn [snd]; [congruence|].
  unfold after.
  match goal with
  | |- snd (update_appointment_status _ _ ?d) = _ =>
      destruct (update_appointment_status_cases appointment_id s2 d)
        as [[F3 E3] | [a3 [F3 E3]]]; rewrite E3; cbn [snd]
  end.
  - exfalso. cbn [appointment set_appointment rows] in F3.
    rewrite find_map_same_key, F1 in F3; [discriminate|].
    intros r. destruct (Appointment_id_appointment r =? appointment_id);
      reflexivity.
  - cbn [appointment set_appointment rows next_id].
    unfold set_appointment. cbn. rewrite map_map. f_equal. f_equal.
    apply map_ext. intros r.
    destruct (Appointment_id_appointment r =? appointment_id) eqn:K.
    + cbn. rewrite K. reflexivity.
    + rewrite K. reflexivity.
Qed.

(** ** Rows stay *)

Ltac appended :=
  first [ exists []; rewrite app_nil_r; reflexivity
        | eexists; reflexivity ].

Ltac all_appended :=
  do 11 (split; [appended|]); intros _; appended.

Lemma serve_appends (r : Request) (db : DB) :
  appends roles db (serve r db) /\
  appends genres db (serve r db) /\
  appends departments db (serve r db) /\
  appends citys db (serve r db) /\
  appends users db (serve r db) /\
  appends specialties db (serve r db) /\
  appends barber_schedule db (serve r db) /\
  appends customers db (serve r db) /\
  appends barbershops db (serve r db) /\
  appends barbers db (serve r db) /\
  appends locations db (serve r db) /\
  (is_delete r = false -> appends staff db (serve r db)).
Proof.
  unfold appends.
  destruct r; cbn [serve is_delete];
    try (unfold_reads;
         first [ rewrite query_page_after
               | rewrite query_first_or_404_after
               | idtac ];
         all_appended);
    try (unfold_creates; after_add; all_appended).
  - (* DELETE /staff/{staff_id} *)
    unfold after.
    destruct (delete_staff_cases staff_id db)
      as [[_ E] | [[_ [_ E]] | [_ [_ E]]]]; rewrite E; cbn [snd];
      do 11 (split; [appended|]); discriminate.
  - (* PATCH /appointments/{appointment_id}/status *)
    unfold after.
    destruct (update_appointment_status_cases appointment_id status db)
      as [[_ E] | [a [_ E]]]; rewrite E; cbn [snd]; all_appended.
Qed.

(** X17.  No request removes or rewrites a row of [roles], [genres],
    [departments], [citys], [users], [specialties], [barber_schedule],
    [customers], [barbershops], [barbers] or [locations]: after any
    request each of these tables is what it was, with at most new rows at
    its end.  The same holds of [staff] for every request but the
    DELETE. *)
Theorem rows_are_only_appended (r : Request) (db : DB) :
  appends roles db (serve r db) /\
  appends genres db (serve r db) /\
  appends departments db (serve r db) /\
  appends citys db (serve r db) /\
  appends users db (serve r db) /\
  appends specialties db (serve r db) /\
  appends barber_schedule db (serve r db) /\
  appends customers db (serve r db) /\
  appends barbershops db (serve r db) /\
  appends barbers db (serve r db) /\
  appends locations db (serve r db) /\
  (is_delete r = false -> appends staff db (serve r db)).
Proof.
  exact (serve_appends r db).
Qed.

Lemma rows_are_only_appended_witness :
  is_delete (POST_staff (mk_StaffCreate 1)) = false /\
  appends staff sample_db (serve (POST_staff (mk_StaffCreate 1)) sample_db).
Proof.
  split; [reflexivity|].
  exact (proj2 (proj2 (proj2 (proj2 (proj2 (proj2 (proj2 (proj2 (proj2
           (proj2 (proj2
              (rows_are_only_appended (POST_staff (mk_StaffCreate 1))
                 sample_db)))))))))))
           eq_refl).
Defined.

Lemma appends_In {R : Type} (tbl : DB -> Table R) (db db' : DB) (x : R) :
  appends tbl db db' -> In x (rows (tbl db)) -> In x (rows (tbl db')).
Proof.
  intros [new E] H. rewrite E. apply in_or_app. now left.
Qed.

Lemma referenced_staff_survives (r : Request) (db : DB) (s : Staff)
    (b : Barbershop) :
  In s (rows (staff db)) -> In b (rows (barbershops db)) ->
  Barbershop_id_staff b = Staff_id_staff s ->
  In s (rows (staff (serve r db))) /\ In b (rows (barbershops (serve r db))).
Proof.
  intros Hs Hb Hk.
  pose proof (serve_appends r db) as H.
  split.
  - destruct r; try (apply (appends_In staff db);
                      [apply H; reflexivity | assumption]).
    (* DELETE /staff/{staff_id} *)
    cbn [serve]. unfold after.
    destruct (Z.eq_dec (Staff_id_staff s) staff_id) as [K | K].
    + rewrite (delete_staff_refused_while_referenced db staff_id s b)
        by congruence.
      exact Hs.
    + destruct (delete_staff_cases staff_id db)
        as [[_ E] | [[_ [_ E]] | [_ [_ E]]]]; rewrite E; cbn [snd];
        try exact Hs.
      cbn [staff set_staff rows]. apply filter_In. split; [exact Hs|].
      apply negb_true_iff, Z.eqb_neq. exact K.
  - apply (appends_In barbershops db); [apply H | assumption].
Qed.

(** X18.  A staff row that a barbershop refers to is there for good:
    whatever requests follow, the row is still in [staff], and deleting it
    is still refused with [IntegrityError]. *)
Theorem referenced_staff_is_never_deleted (rs : list Request) (db : DB)
    (s : Staff) (b : Barbershop) :
  In s (rows (staff db)) -> In b (rows (barbershops db)) ->
  Barbershop_id_staff b = Staff_id_staff s ->
  In s (rows (staff (fold_left (fun db r => serve r db) rs db))) /\
  delete_staff (Staff_id_staff s)
    (fold_left (fun db r => serve r db) rs db)
  = (Err IntegrityError, fold_left (fun db r => serve r db) rs db).
Proof.
  revert db. induction rs as [|r rs IH]; intros db Hs Hb Hk; cbn.
  - split; [exact Hs|].
    now apply (delete_staff_refused_while_referenced db _ s b).
  - destruct (referenced_staff_survives r db s b Hs Hb Hk) as [Hs' Hb'].
    now apply IH.
Qed.

Lemma referenced_staff_is_never_deleted_witness :
  In (mk_Staff 1 1) (rows (staff sample_db)) /\
  In (mk_Staff 1 1)
    (rows (staff
             (fold_left (fun db r => serve r db)
                [DELETE_staff 1; DELETE_staff 2; DELETE_staff 1]
                sample_db))).
Proof.
  assert (Hs : In (mk_Staff 1 1) (rows (staff sample_db)))
    by (left; reflexivity).
  assert (Hb : In (mk_Barbershop 1 1 None) (rows (barbershops sample_db)))
    by (left; reflexivity).
  split; [exact Hs|].
  exact (proj1 (referenced_staff_is_never_deleted
                  [DELETE_staff 1; DELETE_staff 2; DELETE_staff 1]
                  sample_db _ _ Hs Hb eq_refl)).
Defined.

(** ** Invariants of the reachable stores *)

(** X19.  In every store that the API reaches from the empty one, the
    primary keys of each table are pairwise distinct and below the counter
    of the table, and no two users have the same email. *)
Theorem reachable_stores_have_distinct_keys (db : DB) :
  reachable db -> wf db.
Proof.
  exact (reachable_wf db).
Qed.

Lemma reachable_stores_have_distinct_keys_witness :
  reachable sample_db /\
  NoDup (map User_email (rows (users sample_db))).
Proof.
  split; [exact sample_db_reachable|].
  exact (wf_emails _
           (reachable_stores_have_distinct_keys sample_db
              sample_db_reachable)).
Defined.

(** X20.  In every store that the API reaches from the empty one, every
    foreign key of every row is the id of a row of the table it refers to
    (a nullable one may be absent): the creates check it, nothing but
    [staff] rows is ever removed, and a staff row goes only when no
    barbershop refers to it. *)
Theorem reachable_stores_have_no_dangling_reference (db : DB) :
  reachable db -> references_ok db.
Proof.
  exact (reachable_references_ok db).
Qed.

Lemma reachable_stores_have_no_dangling_reference_witness :
  reachable sample_db /\
  Forall (fun b => Barbershop_constraints sample_db b = true)
    (rows (barbershops sample_db)).
Proof.
  split; [exact sample_db_reachable|].
  exact (ref_barbershops _
           (reachable_stores_have_no_dangling_reference sample_db
              sample_db_reachable)).
Defined.





(** ** Rows come in the order of their ids *)

Lemma ascending_snoc {R : Type} (pk : R -> Z) (l : list R) (x : R) :
  ascending pk l -> Forall (fun r => pk r < pk x) l ->
  ascending pk (l ++ [x]).
Proof.
  unfold ascending. induction l as [|a l IH]; cbn; intros Hs Hx.
  - repeat constructor.
  - apply StronglySorted_inv in Hs. destruct Hs as [Hs Ha].
    inversion Hx; subst. constructor; [now apply IH|].
    apply Forall_app. split; [assumption | now repeat constructor].
Qed.

Lemma ascending_filter {R : Type} (pk : R -> Z) (p : R -> bool)
    (l : list R) :
  ascending pk l -> ascending pk (filter p l).
Proof.
  unfold ascending. induction l as [|a l IH]; cbn; intros Hs;
    [constructor|].
  apply StronglySorted_inv in Hs. destruct Hs as [Hs Ha].
  destruct (p a); [| now apply IH]. constructor; [now apply IH|].
  rewrite Forall_forall in *. intros x Hx. apply filter_In in Hx.
  apply Ha. tauto.
Qed.

Lemma ascending_map {R : Type} (pk : R -> Z) (f : R -> R) (l : list R) :
  (forall r, pk (f r) = pk r) -> ascending pk l -> ascending pk (map f l).
Proof.
  unfold ascending. intros Hf. induction l as [|a l IH]; cbn; intros Hs;
    [constructor|].
  apply StronglySorted_inv in Hs. destruct Hs as [Hs Ha].
  constructor; [now apply IH|].
  rewrite Forall_forall in *. intros x Hx.
  apply in_map_iff in Hx. destruct Hx as [y [<- Hy]].
  rewrite !Hf. now apply Ha.
Qed.

Lemma ascending_app_inv {R : Type} (pk : R -> Z) (l1 l2 : list R) :
  ascending pk (l1 ++ l2) ->
  ascending pk l1 /\ ascending pk l2 /\
  forall x y, In x l1 -> In y l2 -> pk x < pk y.
Proof.
  unfold ascending. induction l1 as [|a l1 IH]; cbn; intros Hs.
  - repeat split; [constructor | assumption | intros x y []].
  - apply StronglySorted_inv in Hs. destruct Hs as [Hs Ha].
    destruct (IH Hs) as [H1 [H2 H3]].
    rewrite Forall_forall in Ha.
    split; [| split; [assumption|]].
    + constructor; [assumption|]. rewrite Forall_forall. intros x Hx.
      apply Ha. apply in_or_app. now left.
    + intros x y [<- | Hx] Hy; [| now apply H3].
      apply Ha. apply in_or_app. now right.
Qed.

Lemma ordered_empty : ordered empty_db.
Proof.
  constructor; constructor.
Qed.

Lemma serve_ordered (r : Request) (db : DB) :
  wf db -> ordered db -> ordered (serve r db).
Proof.
  intros W H.
  destruct r; cbn [serve];
    try (unfold_reads;
         first [ rewrite query_page_after
               | rewrite query_first_or_404_after
               | idtac ];
         exact H);
    try (unfold_creates; after_add; [| | exact H];
         destruct H, W; constructor; cbn [rows roles genres departments
           citys users specialties barber_schedule customers staff
           barbershops barbers locations appointment set_roles set_genres
           set_departments set_citys set_users set_specialties
           set_barber_schedule set_customers set_staff set_barbershops
           set_barbers set_locations set_appointment];
         try assumption;
         apply ascending_snoc; [assumption|];
         match goal with
         | K : keys_ok _ _ |- Forall _ (rows ?t) =>
             match type of K with
             | keys_ok _ t => exact (proj2 K)
             end
         end).
  - (* DELETE /staff/{staff_id} *)
    unfold after.
    destruct (delete_staff_cases staff_id db)
      as [[_ E] | [[_ [_ E]] | [_ [_ E]]]]; rewrite E; cbn [snd];
      try exact H.
    destruct H; constructor; try assumption.
    cbn [rows staff set_staff]. now apply ascending_filter.
  - (* PATCH /appointments/{appointment_id}/status *)
    unfold after.
    destruct (update_appointment_status_cases appointment_id status db)
      as [[_ E] | [a [_ E]]]; rewrite E; cbn [snd]; try exact H.
    destruct H; constructor; try assumption.
    cbn [rows appointment set_appointment].
    apply ascending_map; [| assumption].
    intros x. destruct (Appointment_id_appointment x =? appointment_id);
      reflexivity.
Qed.

Lemma reachable_ordered (db : DB) : reachable db -> ordered db.
Proof.
  induction 1 as [| r db Hr IH]; [apply ordered_empty|].
  apply serve_ordered; [now apply reachable_wf | assumption].
Qed.




(** X22.  In every store that the API reaches, the staff row that
    [read_staff_by_barber] returns is the oldest one of the barber: no
    staff row of that barber has a smaller id. *)
Theorem read_staff_by_barber_returns_the_oldest
    (db : DB) (barber_id : Z) (s : Staff) :
  reachable db ->
  read_staff_by_barber barber_id db = (Ok s, db) ->
  Staff_id_barber s = barber_id /\
  forall s', In s' (rows (staff db)) -> Staff_id_barber s' = barber_id ->
             Staff_id_staff s <= Staff_id_staff s'.
Proof.
  intros Hr H.
  pose proof (ord_staff _ (reachable_ordered db Hr)) as Hord.
  destruct (get_by_id_cases staff Staff_id_barber barber_id
              "Staff not found for this barber" db)
    as [[_ E] | [before [x [after_ [Hl [Hx [Hb E]]]]]]];
    unfold read_staff_by_barber in H; rewrite E in H; [discriminate|].
  injection H as <-. split; [assumption|].
  intros s' Hin Hs'. rewrite Hl in Hin, Hord.
  apply ascending_app_inv in Hord. destruct Hord as [_ [Hord _]].
  apply StronglySorted_inv in Hord. destruct Hord as [_ Hafter].
  apply in_app_or in Hin. destruct Hin as [Hin | [<- | Hin]].
  - exfalso. exact (Hb s' Hin Hs').
  - lia.
  - rewrite Forall_forall in Hafter. specialize (Hafter s' Hin).
    cbv beta in Hafter. lia.
Qed.

Lemma read_staff_by_barber_returns_the_oldest_witness :
  reachable sample_db /\
  read_staff_by_barber 1 sample_db = (Ok (mk_Staff 1 1), sample_db) /\
  Staff_id_staff (mk_Staff 1 1) <= Staff_id_staff (mk_Staff 2 1).
Proof.
  assert (H : read_staff_by_barber 1 sample_db
              = (Ok (mk_Staff 1 1), sample_db)) by reflexivity.
  split; [exact sample_db_reachable|]. split; [exact H|].
  apply (proj2 (read_staff_by_barber_returns_the_oldest sample_db 1 _
                  sample_db_reachable H)).
  - right. left. reflexivity.
  - reflexivity.
Defined.

(** ** The response to a created user *)




(** * The connection test script *)

(** ** What the script reports *)

Lemma test_database_permissions_result_iff (run : PermissionsRun) :
  snd (test_database_permissions run) = true <->
  run_connect run = None /\ run_cursor run = None /\
  run_cursor_close run = None /\ run_connection_close run = None.
Proof.
  unfold test_database_permissions.
  destruct (run_connect run), (run_cursor run), (run_cursor_close run),
    (run_connection_close run); cbn [snd];
    split; intros H; try discriminate; try tauto;
    destruct H as [? [? [? ?]]]; discriminate.
Qed.

(** X24.  [test_database_permissions] returns [True] exactly when opening
    the connection, opening the cursor and closing both raise nothing:
    what the SELECT and the five modifying statements do has no part in
    the result, so the test passes even when each of them is refused. *)
Theorem test_database_permissions_ignores_the_checks (run : PermissionsRun) :
  snd (test_database_permissions run) = true <->
  run_connect run = None /\ run_cursor run = None /\
  run_cursor_close run = None /\ run_connection_close run = None.
Proof.
  exact (test_database_permissions_result_iff run).
Qed.

Example test_database_permissions_all_refused :
  test_database_permissions
    (mk_PermissionsRun None None (Some "denied"%string)
       (Some "denied"%string) None None None None None None)
  = (print_separator "TESTING DATABASE PERMISSIONS"
     ++ ["❌ SELECT permissions: denied"%string;
         "❌ Error in modification permissions: denied"%string],
     true).
Proof.
  reflexivity.
Qed.

Lemma modification_checks_report_drop (run : PermissionsRun) :
  In "✅ DROP permissions: OK"%string (modification_checks run) <->
  run_create_table run = None /\ run_insert run = None /\
  run_update run = None /\ run_delete run = None /\
  run_drop_table run = None.
Proof.
  unfold modification_checks.
  destruct (run_create_table run), (run_insert run), (run_update run),
    (run_delete run), (run_drop_table run);
    cbn; intuition (try discriminate; try congruence).
Qed.

Lemma drop_line_not_in_banner :
  ~ In "✅ DROP permissions: OK"%string
      (print_separator "TESTING DATABASE PERMISSIONS").
Proof.
  cbn. intuition discriminate.
Qed.

Lemma modification_checks_first_raised (run : PermissionsRun) :
  modification_checks run
  = match first_raised (modifying_statements run) with
    | None => permitted_lines
    | Some (n, e) =>
        firstn n permitted_lines
        ++ ["❌ Error in modification permissions: " ++ e]%string
    end.
Proof.
  unfold modification_checks, modifying_statements.
  destruct (run_create_table run), (run_insert run), (run_update run),
    (run_delete run), (run_drop_table run); reflexivity.
Qed.

(** X25.  The five modifying statements are tried in the order CREATE,
    INSERT, UPDATE, DELETE, DROP and the first exception ends the block.
    When the connection and the cursor open, the output is the banner, the
    line of the SELECT, the lines of the block and then at most one line
    for a failure to close; the lines of the block are the five lines
    [permissions: OK], in that order, when no statement raises, and
    otherwise the lines of the statements before the first one that
    raises, in that order, followed by one line with its exception and by
    nothing of the statements after it.  So the line that reports DROP as
    permitted is printed exactly when the connection and the cursor open
    and all five statements return, whatever the SELECT does and whether
    or not closing fails. *)
Theorem drop_is_reported_only_after_the_other_four (run : PermissionsRun) :
  (run_connect run = None -> run_cursor run = None ->
   exists closing,
     fst (test_database_permissions run)
     = print_separator "TESTING DATABASE PERMISSIONS"
       ++ [select_line run]
       ++ match first_raised (modifying_statements run) with
          | None => permitted_lines
          | Some (n, e) =>
              firstn n permitted_lines
              ++ ["❌ Error in modification permissions: " ++ e]%string
          end
       ++ closing /\
     (closing = [] \/
      exists e, closing = ["❌ Error testing permissions: " ++ e]%string)) /\
  (In "✅ DROP permissions: OK"%string (fst (test_database_permissions run))
   <->
   run_connect run = None /\ run_cursor run = None /\
   run_create_table run = None /\ run_insert run = None /\
   run_update run = None /\ run_delete run = None /\
   run_drop_table run = None).
Proof.
  split.
  { intros Hc Hk. rewrite <- modification_checks_first_raised.
    unfold test_database_permissions, select_line. cbv zeta.
    rewrite Hc, Hk.
    destruct (run_cursor_close run) as [e3|];
      [| destruct (run_connection_close run) as [e4|]]; cbn [fst];
      [ exists ["❌ Error testing permissions: " ++ e3]%string
      | exists ["❌ Error testing permissions: " ++ e4]%string
      | exists [] ];
      (split; [| eauto]); rewrite <- ?app_assoc, ?app_nil_r; reflexivity. }
  pose proof (modification_checks_report_drop run) as Hm.
  pose proof drop_line_not_in_banner as Hb.
  assert (He : forall e,
             ("❌ Error testing permissions: " ++ e)%string
             <> "✅ DROP permissions: OK"%string)
    by (intros e; cbn; discriminate).
  assert (Hs : (match run_select run with
                | None => "✅ SELECT permissions: OK"
                | Some e => "❌ SELECT permissions: " ++ e
                end)%string <> "✅ DROP permissions: OK"%string)
    by (destruct (run_select run); cbn; discriminate).
  unfold test_database_permissions. cbv zeta.
  destruct (run_connect run) as [e1|], (run_cursor run) as [e2|];
    cbn [fst].
  1-3: rewrite in_app_iff; cbn [In]; split;
    [ intros [H | [H | []]]; [contradiction | exfalso; eapply He; eauto]
    | intros H; exfalso; intuition discriminate ].
  destruct (run_cursor_close run) as [e3|],
    (run_connection_close run) as [e4|];
    cbn [fst]; rewrite ?in_app_iff; cbn [In]; rewrite Hm; split;
    intros H; try tauto;
    repeat match goal with
           | H : _ \/ _ |- _ => destruct H
           | H : False |- _ => destruct H
           end;
    try contradiction; try tauto; exfalso; eapply He; eauto.
Qed.

Lemma drop_is_reported_only_after_the_other_four_witness :
  exists closing,
    fst (test_database_permissions
           (mk_PermissionsRun None None None None None (Some "denied"%string)
              None None None None))
    = print_separator "TESTING DATABASE PERMISSIONS"
      ++ ["✅ SELECT permissions: OK"; "✅ CREATE permissions: OK";
          "✅ INSERT permissions: OK";
          "❌ Error in modification permissions: denied"]%string
      ++ closing /\
    (closing = [] \/
     exists e, closing = ["❌ Error testing permissions: " ++ e]%string).
Proof.
  exact (proj1 (drop_is_reported_only_after_the_other_four
                  (mk_PermissionsRun None None None None None
                     (Some "denied"%string) None None None None))
           eq_refl eq_refl).
Defined.

(** X26.  When the two connection tests pass and the permission test
    opens and closes its connection and cursor, [main] counts three tests
    out of three and prints that all tests passed, whatever the SELECT and
    the five modifying statements did. *)
Theorem main_reports_success_without_permissions
    (diagnostics : list string)
    (pymysql_connection sqlalchemy_connection : list string * bool)
    (run : PermissionsRun) :
  snd pymysql_connection = true ->
  snd sqlalchemy_connection = true ->
  run_connect run = None -> run_cursor run = None ->
  run_cursor_close run = None -> run_connection_close run = None ->
  In "🏆 Successful tests: 3/3"%string
    (main diagnostics pymysql_connection sqlalchemy_connection run) /\
  In "🎉 ALL TESTS PASSED!"%string
    (main diagnostics pymysql_connection sqlalchemy_connection run).
Proof.
  intros H1 H2 Hc Hk Hcc Hkc.
  pose proof (proj2 (test_database_permissions_result_iff run)
                (conj Hc (conj Hk (conj Hcc Hkc)))) as H3.
  unfold main. cbv zeta. rewrite H1, H2, H3.
  change ((if true then 1 else 0) + (if true then 1 else 0)
          + (if true then 1 else 0)) with 3.
  change (3 =? 3) with true. cbv iota.
  split; do 6 (apply in_or_app; right); apply in_or_app;
    [left | right]; left; reflexivity.
Qed.

Lemma main_reports_success_without_permissions_witness :
  In "❌ Error in modification permissions: denied"%string
    (main [] ([], true) ([], true)
       (mk_PermissionsRun None None None (Some "denied"%string) None None
          None None None None)) /\
  In "🎉 ALL TESTS PASSED!"%string
    (main [] ([], true) ([], true)
       (mk_PermissionsRun None None None (Some "denied"%string) None None
          None None None None)).
Proof.
  split.
  - vm_compute. do 6 right. left. reflexivity.
  - exact (proj2 (main_reports_success_without_permissions [] ([], true)
                    ([], true)
                    (mk_PermissionsRun None None None
                       (Some "denied"%string) None None None None None
                       None)
                    eq_refl eq_refl eq_refl eq_refl eq_refl eq_refl)).
Defined.
